(** * Moab hat driver ([sw/hat.py]): packet codec, bus transceiver, offset
    geometry and display protocol, embedded as executable functions.

    Python integers are [Z]; Python floats are IEEE binary64 numbers, taken
    from the kernel's primitive floats; a raised exception is the [Raise]
    branch of [result]. *)

From Stdlib Require Import ZArith List Bool Lia Floats QArith Qabs.
From Stdlib.Strings Require Import Byte String Ascii.
From Stdlib Require Import DecimalString.
Import ListNotations.
Open Scope Z_scope.

(* Decimal literals such as 0.866 denote the nearest binary64 number, as in
   Python. *)
Set Warnings "-inexact-float".

(** ** Exceptions and results *)

Inductive exn : Type :=
| AssertionError     (* a failed [assert] *)
| ValueError
| TypeError
| OverflowError
| ZeroDivisionError
| IndexError
| OSError            (* [IOError] is an alias of [OSError] *)
| UnicodeEncodeError.

Inductive result (A : Type) : Type :=
| Ok (a : A)
| Raise (e : exn).
Arguments Ok {A} a.
Arguments Raise {A} e.

Definition rbind {A B} (r : result A) (k : A -> result B) : result B :=
  match r with
  | Ok a => k a
  | Raise e => Raise e
  end.

Declare Scope result_scope.
Delimit Scope result_scope with res.
Notation "x <- r ;; k" := (rbind r (fun x => k))
  (at level 61, r at next level, right associativity) : result_scope.
Notation "' p <- r ;; k" := (rbind r (fun p => k))
  (at level 61, p pattern, r at next level, right associativity) : result_scope.

(** ** Python numbers *)

Inductive pynum : Type :=
| PyInt (z : Z)
| PyFloat (f : float).

(** [float(z)] for a Python int: the nearest binary64 number, ties to even. *)
Definition Z2SF (z : Z) : spec_float := binary_normalize prec emax z 0 false.

(** The conversion raises when the rounded value does not fit
    ("int too large to convert to float"). *)
Definition int_to_float (z : Z) : result float :=
  match Z2SF z with
  | S754_infinity _ => Raise OverflowError
  | sf => Ok (SF2Prim sf)
  end.

Definition as_float (a : pynum) : result float :=
  match a with
  | PyInt z => int_to_float z
  | PyFloat f => Ok f
  end.

(** [a + b] *)
Definition py_add (a b : pynum) : result pynum :=
  match a, b with
  | PyInt x, PyInt y => Ok (PyInt (x + y))
  | _, _ =>
      (fa <- as_float a ;; fb <- as_float b ;; Ok (PyFloat (fa + fb)%float))%res
  end.

(** [a * b] *)
Definition py_mul (a b : pynum) : result pynum :=
  match a, b with
  | PyInt x, PyInt y => Ok (PyInt (x * y))
  | _, _ =>
      (fa <- as_float a ;; fb <- as_float b ;; Ok (PyFloat (fa * fb)%float))%res
  end.

(** The exact value of a finite float, as a numerator over a power of two:
    [(n, k)] stands for [n / 2^k]. *)
Definition float_exact (f : float) : option (Z * Z) :=
  match Prim2SF f with
  | S754_zero _ => Some (0, 0)
  | S754_finite s m e =>
      let n := if s then Z.neg m else Z.pos m in
      if 0 <=? e then Some (n * 2 ^ e, 0) else Some (n, - e)
  | _ => None
  end.

(** [a == b] on numbers: comparison of the exact values. *)
Definition py_eq (a b : pynum) : bool :=
  match a, b with
  | PyInt x, PyInt y => x =? y
  | PyFloat f, PyFloat g => (f =? g)%float
  | PyFloat f, PyInt z | PyInt z, PyFloat f =>
      match float_exact f with
      | Some (n, k) => n =? z * 2 ^ k
      | None => false
      end
  end.

(** [a / b] for two ints: the exact quotient rounded once, ties to even.
    The quotient is taken with at least 64 significant bits and a sticky
    bit, so that the single rounding of [binary_normalize] decides as on
    the exact value. *)
Definition int_truediv (a b : Z) : result float :=
  if b =? 0 then Raise ZeroDivisionError
  else if a =? 0 then Ok (if b <? 0 then (-0)%float else 0%float)
  else
    let neg := xorb (a <? 0) (b <? 0) in
    let n := Z.abs a in
    let d := Z.abs b in
    let k := Z.max 0 (64 + Z.log2 d - Z.log2 n) in
    let q := (n * 2 ^ k) / d in
    let sticky := if (n * 2 ^ k) mod d =? 0 then 0 else 1 in
    let m := 2 * q + sticky in
    match binary_normalize prec emax (if neg then - m else m) (- k - 1) false with
    | S754_infinity _ => Raise OverflowError
    | sf => Ok (SF2Prim sf)
    end.

(** [int(f)]: truncation toward zero; [nan] and the infinities raise. *)
Definition float_to_int (f : float) : result Z :=
  match Prim2SF f with
  | S754_nan => Raise ValueError
  | S754_infinity _ => Raise OverflowError
  | _ =>
      match float_exact f with
      | Some (n, k) => Ok (Z.quot n (2 ^ k))
      | None => Raise ValueError
      end
  end.

(** ** Command codes ([IntEnum] classes) *)

Module SendCommand.
Definition NOOP : Z := 0x00.
Definition SERVO_ENABLE : Z := 0x01.
Definition SERVO_DISABLE : Z := 0x02.
Definition CONTROL_INFO : Z := 0x03.
Definition SET_PLATE_ANGLES : Z := 0x04.
Definition SET_SERVOS : Z := 0x05.
Definition TEXT_ICON_SELECT : Z := 0x06.
Definition DISPLAY_BUFFER : Z := 0x07.
Definition SET_DEBUGGING_OFF : Z := 0x40.
Definition SET_DEBUGGING_EMERG : Z := 0x40.
Definition SET_DEBUGGING_ALERT : Z := 0x41.
Definition SET_DEBUGGING_CRIT : Z := 0x42.
Definition SET_DEBUGGING_ERR : Z := 0x43.
Definition SET_DEBUGGING_WARNING : Z := 0x44.
Definition SET_DEBUGGING_NOTICE : Z := 0x45.
Definition SET_DEBUGGING_INFO : Z := 0x46.
Definition SET_DEBUGGING_DEBUG : Z := 0x47.
Definition REQUEST_STATE_INFO : Z := 0x4E.
Definition REQUEST_FW_VERSION : Z := 0x4F.
Definition ARBITRARY_MESSAGE : Z := 0x80.
End SendCommand.

Module Button.
Definition MENU : Z := 1.
Definition JOYSTICK : Z := 2.
End Button.

Module JoystickByteIndex.
Definition X : nat := 1.
Definition Y : nat := 2.
End JoystickByteIndex.

Module GpioPin.
Definition BOOT_EN : Z := 5.
Definition HAT_EN : Z := 20.
Definition HAT_RESET : Z := 6.
Definition HAT_PWR_N : Z := 3.
End GpioPin.

Definition X_TILT_SERVO1 : float := (-0.5)%float.
Definition Y_TILT_SERVO2 : float := 0.866%float.
Definition Y_TILT_SERVO3 : float := (-0.866)%float.

(** ** Helper functions *)

(** [_uint8_to_int8(b)] (hat.py, line 105) *)
Definition _uint8_to_int8 (b : Z) : Z := if b <? 128 then b else -256 + b.

(** *** NumPy's [int8] *)

(** Two's complement narrowing to a signed byte. *)
Definition wrap_int8 (z : Z) : Z := (z + 128) mod 256 - 128.

(** The byte that goes on the wire for a list element ([spidev] narrows
    each int to an unsigned byte). *)
Definition wire_byte (z : Z) : Z := z mod 256.

(** Storing a Python int in an [int8] array: through a C [long], then
    narrowed (out-of-range values wrap, as [hover] and [lower] rely on). *)
Definition store_int8 (z : Z) : result Z :=
  if (- 2 ^ 63 <=? z) && (z <? 2 ^ 63) then Ok (wrap_int8 z)
  else Raise OverflowError.

(** Storing a Python number in an [int8] array: [int(v)] first. *)
Definition np_int8 (v : pynum) : result Z :=
  match v with
  | PyInt z => store_int8 z
  | PyFloat f => (z <- float_to_int f ;; store_int8 z)%res
  end.

Fixpoint rmap {A B} (f : A -> result B) (l : list A) : result (list B) :=
  match l with
  | [] => Ok []
  | a :: l' => (b <- f a ;; bs <- rmap f l' ;; Ok (b :: bs))%res
  end.

(** [np.array(l, dtype=np.int8)] *)
Definition np_array_int8 (l : list pynum) : result (list Z) := rmap np_int8 l.

(** [right_pad_array(arr, length, dtype=np.int8)] (hat.py, line 149), the
    packet codec; [arr] holds Python ints
    (a list, or the contents of an [int8] array).  The comparisons are with
    the literal 9, not with [length].  [padded_arr[:len_arr] = arr] stores
    each element as [int8]; when [length < len_arr] the slice is shorter than
    [arr] and NumPy refuses to broadcast, except for one element into an
    empty slice. *)
Definition right_pad_array (arr : list Z) (length : nat) : result (list Z) :=
  let len_arr := List.length arr in
  if (len_arr <? 9)%nat then
    (vals <- rmap store_int8 arr ;;
     if (len_arr <=? length)%nat then
       Ok (vals ++ repeat 0 (length - len_arr))
     else if (len_arr =? 1)%nat then Ok (repeat 0 length)
     else Raise ValueError)%res
  else if (len_arr =? 9)%nat then Ok arr
  else Raise ValueError.

(** [_xy_offsets(x, y, servo_offsets)] (hat.py, line 161); [+] and [*] are
    evaluated in the order Python does. *)
Definition _xy_offsets (x y : pynum) (servo_offsets : pynum * pynum * pynum)
  : result (pynum * pynum) :=
  let '(so_1, so_2, so_3) := servo_offsets in
  (t1 <- py_add x so_1 ;;
   t2 <- py_mul (PyFloat X_TILT_SERVO1) so_2 ;;
   t3 <- py_add t1 t2 ;;
   t4 <- py_mul (PyFloat X_TILT_SERVO1) so_3 ;;
   x_offset <- py_add t3 t4 ;;
   u1 <- py_mul (PyFloat Y_TILT_SERVO2) so_2 ;;
   u2 <- py_add y u1 ;;
   u3 <- py_mul (PyFloat Y_TILT_SERVO3) so_3 ;;
   y_offset <- py_add u2 u3 ;;
   Ok (x_offset, y_offset))%res.

(** ** The device and the driver object *)

(** What the driver does to the outside world, in order.  [Sleep] carries
    microseconds; [Xfer] carries the list handed to [spi.xfer]. *)
Inductive event : Type :=
| SpiOpen (bus device max_speed_hz : Z)
| SpiClose
| GpioSetup
| GpioOutput (pin : Z) (high : bool)
| GpioCleanup
| Sleep (us : Z)
| Xfer (frame : list Z).

(** The attributes of a [Hat] object. *)
Record Hat : Type := mkHat {
  servo_offsets : pynum * pynum * pynum;
  menu_btn : bool;
  joy_btn : bool;
  joy_x : pynum;
  joy_y : pynum
}.

(** A [Hat] together with its bus: the events so far, whether the bus handle
    is open, and the outcomes of the transfers still to come ([None]: the
    transfer fails; the peripheral answers with unsigned bytes). *)
Record World : Type := mkWorld {
  hat : Hat;
  trace : list event;
  spi_is_open : bool;
  incoming : list (option (list byte))
}.

(** Stateful code: attribute writes and events persist when an exception
    is raised. *)
Definition M (A : Type) : Type := World -> result A * World.

Definition ret {A} (a : A) : M A := fun w => (Ok a, w).
Definition throw {A} (e : exn) : M A := fun w => (Raise e, w).
Definition bind {A B} (m : M A) (k : A -> M B) : M B :=
  fun w =>
    match m w with
    | (Ok a, w') => k a w'
    | (Raise e, w') => (Raise e, w')
    end.
Definition lift {A} (r : result A) : M A := fun w => (r, w).

Declare Scope hat_scope.
Delimit Scope hat_scope with hat.
Notation "x <- m ;; k" := (bind m (fun x => k))
  (at level 61, m at next level, right associativity) : hat_scope.
Notation "' p <- m ;; k" := (bind m (fun p => k))
  (at level 61, p pattern, m at next level, right associativity) : hat_scope.
Notation "m ;;; k" := (bind m (fun _ => k))
  (at level 61, right associativity) : hat_scope.

Definition get_hat : M Hat := fun w => (Ok (hat w), w).
Definition set_hat (f : Hat -> Hat) : M unit :=
  fun w => (Ok tt, mkWorld (f (hat w)) (trace w) (spi_is_open w) (incoming w)).
Definition emit (e : event) : M unit :=
  fun w => (Ok tt, mkWorld (hat w) (trace w ++ [e]) (spi_is_open w) (incoming w)).

(** [time.sleep] *)
Definition sleep (us : Z) : M unit := emit (Sleep us).

(** [self.spi.xfer(frame)]: a full-duplex transfer.  It fails on a closed
    handle and when the bus reports an error. *)
Definition spi_xfer (frame : list Z) : M (list byte) :=
  fun w =>
    let tr := trace w ++ [Xfer frame] in
    if spi_is_open w then
      match incoming w with
      | Some reply :: rest => (Ok reply, mkWorld (hat w) tr true rest)
      | None :: rest => (Raise OSError, mkWorld (hat w) tr true rest)
      | [] => (Raise OSError, mkWorld (hat w) tr true [])
      end
    else (Raise OSError, mkWorld (hat w) tr false (incoming w)).

Definition set_menu_btn (b : bool) (h : Hat) : Hat :=
  mkHat (servo_offsets h) b (joy_btn h) (joy_x h) (joy_y h).
Definition set_joy_btn (b : bool) (h : Hat) : Hat :=
  mkHat (servo_offsets h) (menu_btn h) b (joy_x h) (joy_y h).
Definition set_joy_x (v : pynum) (h : Hat) : Hat :=
  mkHat (servo_offsets h) (menu_btn h) (joy_btn h) v (joy_y h).
Definition set_joy_y (v : pynum) (h : Hat) : Hat :=
  mkHat (servo_offsets h) (menu_btn h) (joy_btn h) (joy_x h) v.
Definition set_offsets (so : pynum * pynum * pynum) (h : Hat) : Hat :=
  mkHat so (menu_btn h) (joy_btn h) (joy_x h) (joy_y h).

Definition byte_val (b : byte) : Z := Z.of_N (Byte.to_N b).

(** [hat_to_pi[i]] *)
Definition index (hat_to_pi : list byte) (i : nat) : result Z :=
  match nth_error hat_to_pi i with
  | Some b => Ok (byte_val b)
  | None => Raise IndexError
  end.

(** [Hat._save_buttons] (hat.py, line 219): four attribute writes in a row;
    an [IndexError] on a short reply leaves the earlier ones done. *)
Definition _save_buttons (hat_to_pi : list byte) : M unit :=
  (b0 <- lift (index hat_to_pi 0) ;;
   set_hat (set_menu_btn (b0 =? Button.MENU)) ;;;
   b0' <- lift (index hat_to_pi 0) ;;
   set_hat (set_joy_btn (b0' =? Button.JOYSTICK)) ;;;
   bx <- lift (index hat_to_pi JoystickByteIndex.X) ;;
   jx <- lift (int_truediv (_uint8_to_int8 bx) 100) ;;
   set_hat (set_joy_x (PyFloat jx)) ;;;
   by_ <- lift (index hat_to_pi JoystickByteIndex.Y) ;;
   jy <- lift (int_truediv (_uint8_to_int8 by_) 100) ;;
   set_hat (set_joy_y (PyFloat jy)))%hat.

(** [Hat.trancieve] (hat.py, line 210): send and receive 9 bytes. *)
Definition trancieve (packet : list Z) : M unit :=
  (packet <- lift (right_pad_array packet 9) ;;
   sleep 1000 ;;;
   hat_to_pi <- spi_xfer packet ;;
   _save_buttons hat_to_pi)%hat.

(** [Hat.poll_buttons] *)
Definition poll_buttons (h : Hat) : bool * bool * pynum * pynum :=
  (menu_btn h, joy_btn h, joy_x h, joy_y h).

(** [Hat.enable_servos] *)
Definition enable_servos : M unit := trancieve [SendCommand.SERVO_ENABLE].

(** [Hat.disable_servos] *)
Definition disable_servos : M unit := trancieve [SendCommand.SERVO_DISABLE].

(** [Hat.set_angles] (hat.py, line 248) *)
Definition set_angles (plate_x_deg plate_y_deg : pynum) : M unit :=
  (self <- get_hat ;;
   '(plate_x, plate_y) <-
      lift (_xy_offsets plate_x_deg plate_y_deg (servo_offsets self)) ;;
   arr <- lift (np_array_int8
                  [PyInt SendCommand.SET_PLATE_ANGLES; plate_x; plate_y]) ;;
   trancieve arr ;;;
   sleep 50000)%hat.

(** [Hat.set_servos] (hat.py, line 261); the commented-out offset
    arithmetic is not run. *)
Definition set_servos (servo1 servo2 servo3 : pynum) : M unit :=
  (arr <- lift (np_array_int8
                  [PyInt SendCommand.SET_SERVOS; servo1; servo2; servo3]) ;;
   trancieve arr ;;;
   sleep 50000)%hat.

(** [Hat.set_servo_offsets] *)
Definition set_servo_offsets (servo1 servo2 servo3 : pynum) : M unit :=
  set_hat (set_offsets (servo1, servo2, servo3)).

(** [Hat.set_icon_text] *)
Definition set_icon_text (icon_idx text_idx : Z) : M unit :=
  trancieve [SendCommand.TEXT_ICON_SELECT; icon_idx; text_idx].

(** [Hat.hover] *)
Definition hover : M unit := set_servos (PyInt 150) (PyInt 150) (PyInt 150).

(** [Hat.lower] *)
Definition lower : M unit := set_servos (PyInt 155) (PyInt 155) (PyInt 155).

(** [Hat.close] *)
Definition close : M unit :=
  fun w => (Ok tt, mkWorld (hat w) (trace w ++ [SpiClose; GpioCleanup]) false
                     (incoming w)).

(** *** Construction *)

(** [setupGPIO] *)
Definition setupGPIO : M unit := emit GpioSetup.

(** [runtime]: leave bootloader mode. *)
Definition runtime : M unit :=
  (emit (GpioOutput GpioPin.HAT_EN false) ;;;
   sleep 20000 ;;;
   emit (GpioOutput GpioPin.HAT_EN true) ;;;
   emit (GpioOutput GpioPin.HAT_RESET false) ;;;
   emit (GpioOutput GpioPin.BOOT_EN false) ;;;
   sleep 250000)%hat.

(** The machine the driver starts on: whether the bus device and the GPIO
    pins can be opened, and how the peripheral will answer. *)
Record Platform : Type := mkPlatform {
  spidev_opens : bool;
  gpio_sets_up : bool;
  answers : list (option (list byte))
}.

(** [Hat.__init__]: any failure to open the bus or to set up the pins is
    re-raised as [IOError] and no object is built. *)
Definition __init__ (pf : Platform) (spi_bus spi_device spi_max_speed_hz : Z)
    (servo_offsets : pynum * pynum * pynum) : result World :=
  let self := mkHat servo_offsets false false (PyInt 0) (PyInt 0) in
  if negb (spidev_opens pf) then Raise OSError
  else
    let w := mkWorld self [SpiOpen spi_bus spi_device spi_max_speed_hz] true
               (answers pf) in
    if negb (gpio_sets_up pf) then Raise OSError
    else
      match (setupGPIO ;;; runtime)%hat w with
      | (Ok _, w') => Ok w'
      | (Raise e, _) => Raise e
      end.

(** ** Display protocol *)

(** A [str] is its sequence of code points; a [bytes] object is a list of
    values in 0..255. *)
Definition pystr : Type := list N.

Definition str_of_string (s : string) : pystr :=
  List.map N_of_ascii (list_ascii_of_string s).

(** A sequence given to [+]: a [list] of ints or a [bytes] object. *)
Inductive pyseq : Type :=
| PyList (l : list Z)
| PyBytes (b : list Z).

(** [l + r] for a list [l]: a list is concatenated with a list only; with a
    [bytes] object on the right Python raises [TypeError]. *)
Definition list_add (l : list Z) (r : pyseq) : result (list Z) :=
  match r with
  | PyList l' => Ok (l ++ l')
  | PyBytes _ => Raise TypeError
  end.

(** [s[lo:hi]] *)
Definition slice {A} (s : list A) (lo hi : nat) : list A :=
  firstn (hi - lo) (skipn lo s).

(** UTF-8 of one code point; surrogates cannot be encoded. *)
Definition utf8_char (c : N) : result (list Z) :=
  let z := Z.of_N c in
  if z <? 0x80 then Ok [z]
  else if z <? 0x800 then
    Ok [Z.lor 0xC0 (Z.shiftr z 6); Z.lor 0x80 (Z.land z 0x3F)]
  else if (0xD800 <=? z) && (z <=? 0xDFFF) then Raise UnicodeEncodeError
  else if z <? 0x10000 then
    Ok [Z.lor 0xE0 (Z.shiftr z 12);
        Z.lor 0x80 (Z.land (Z.shiftr z 6) 0x3F);
        Z.lor 0x80 (Z.land z 0x3F)]
  else if z <? 0x110000 then
    Ok [Z.lor 0xF0 (Z.shiftr z 18);
        Z.lor 0x80 (Z.land (Z.shiftr z 12) 0x3F);
        Z.lor 0x80 (Z.land (Z.shiftr z 6) 0x3F);
        Z.lor 0x80 (Z.land z 0x3F)]
  else Raise UnicodeEncodeError.

(** [bytes(s, "utf-8")] *)
Fixpoint utf8_encode (s : pystr) : result (list Z) :=
  match s with
  | [] => Ok []
  | c :: s' => (b <- utf8_char c ;; bs <- utf8_encode s' ;; Ok (b ++ bs))%res
  end.

(** [for x in l: body(x)] *)
Fixpoint for_each {A} (l : list A) (body : A -> M unit) : M unit :=
  match l with
  | [] => ret tt
  | a :: l' => (body a ;;; for_each l' body)%hat
  end.

(** The public methods of a [Hat] that can change it or its bus.
    [poll_buttons] only reads; [print_info_screen] is
    [print_arbitrary_string] on a formatted string. *)
Inductive Call : Type :=
| CallTrancieve (packet : list Z)
| CallEnableServos
| CallDisableServos
| CallSetAngles (plate_x_deg plate_y_deg : pynum)
| CallSetServos (servo1 servo2 servo3 : pynum)
| CallSetServoOffsets (servo1 servo2 servo3 : pynum)
| CallSetIconText (icon_idx text_idx : Z)
| CallHover
| CallLower
| CallPrintArbitraryString (s : pystr)
| CallClose.

Section Unicode.

(** The upper-case mapping of the code points above ASCII (one code point
    can map to several), from the Unicode tables of the interpreter. *)
Variable unicode_upper : N -> list N.

(** [s.upper()]: code point by code point. *)
Definition upper_char (c : N) : list N :=
  if (c <? 128)%N then
    if (97 <=? c)%N && (c <=? 122)%N then [(c - 32)%N] else [c]
  else unicode_upper c.

Definition str_upper (s : pystr) : pystr := flat_map upper_char s.

(** [Hat.print_arbitrary_string] (hat.py, line 299).  [s] is a [bytes]
    object from [bytes(s, "utf-8")] on, and so is each slice of it;
    [int(np.ceil(len(s) / 8))] is the rounded-up quotient. *)
Definition print_arbitrary_string (s : pystr) : M unit :=
  (let s := str_upper s in
   s <- lift (utf8_encode s) ;;
   let s := s ++ [0] in
   (if (List.length s <=? 256)%nat then ret tt else throw AssertionError) ;;;
   let num_msgs := ((List.length s + 7) / 8)%nat in
   let s := s ++ repeat 0 (num_msgs * 8 - List.length s) in
   for_each (seq 0 num_msgs)
     (fun msg_idx =>
        msg <- lift (list_add [SendCommand.ARBITRARY_MESSAGE]
                       (PyBytes (slice s (8 * msg_idx) (8 * msg_idx + 8)))) ;;
        trancieve msg) ;;;
   trancieve [SendCommand.DISPLAY_BUFFER])%hat.

Definition run (c : Call) : M unit :=
  match c with
  | CallTrancieve packet => trancieve packet
  | CallEnableServos => enable_servos
  | CallDisableServos => disable_servos
  | CallSetAngles x y => set_angles x y
  | CallSetServos a b c => set_servos a b c
  | CallSetServoOffsets a b c => set_servo_offsets a b c
  | CallSetIconText i t => set_icon_text i t
  | CallHover => hover
  | CallLower => lower
  | CallPrintArbitraryString s => print_arbitrary_string s
  | CallClose => close
  end.

(** The worlds a program can bring about: construction, then calls, each
    leaving its effects whether it returns or raises. *)
Inductive reachable : World -> Prop :=
| reach_init pf bus dev hz so w :
    __init__ pf bus dev hz so = Ok w -> reachable w
| reach_call c w :
    reachable w -> reachable (snd (run c w)).

End Unicode.

(** ** Values used in statements *)

(** [float(z)] where it is known not to raise. *)
Definition Z2float (z : Z) : float := SF2Prim (Z2SF z).

(** Replacing the offsets of the driver object, all else equal. *)
Definition with_offsets (so : pynum * pynum * pynum) (w : World) : World :=
  mkWorld (set_offsets so (hat w)) (trace w) (spi_is_open w) (incoming w).

(** The frames handed to [spi.xfer], oldest first. *)
Fixpoint frames (tr : list event) : list (list Z) :=
  match tr with
  | [] => []
  | Xfer f :: tr' => f :: frames tr'
  | _ :: tr' => frames tr'
  end.

(** Both buttons reported pressed at once. *)
Definition both_pressed (h : Hat) : bool := menu_btn h && joy_btn h.

(** A value that fits a C [long]. *)
Definition fits_long (z : Z) : Prop := - 2 ^ 63 <= z < 2 ^ 63.

(** A value that fits a signed byte. *)
Definition fits_int8 (z : Z) : Prop := -128 <= z <= 127.

(** *** The offset geometry in exact and in binary64 arithmetic *)






(** *** Floats at a fixed scale *)







(** [m] keeps [I], whether it returns or raises, and what it returns
    satisfies [V]. *)
Definition keeps {A} (I : World -> Prop) (m : M A) (V : A -> Prop) : Prop :=
  forall w, I w -> I (snd (m w)) /\ forall a, fst (m w) = Ok a -> V a.

(** Every frame handed to the bus so far has nine entries, and the two
    button flags are not both set. *)
Definition consistent (w : World) : Prop :=
  Forall (fun f => List.length f = 9%nat) (frames (trace w))
  /\ both_pressed (hat w) = false.

(** A reply with the menu button pressed and raw byte 200 as joystick X. *)
Definition menu_reply : list byte :=
  [x01; xc8; x00; x00; x00; x00; x00; x00; x00]%byte.

(** A platform on which everything opens and the peripheral answers three
    times with no button pressed and the joystick centred. *)
Definition idle_reply : list byte :=
  [x00; x00; x00; x00; x00; x00; x00; x00; x00]%byte.

Definition demo_platform : Platform :=
  mkPlatform true true [Some idle_reply; Some idle_reply; Some idle_reply].

Definition demo_world (so : pynum * pynum * pynum) : World :=
  mkWorld (mkHat so false false (PyInt 0) (PyInt 0))
    [SpiOpen 0 0 10000; GpioSetup; GpioOutput 20 false; Sleep 20000;
     GpioOutput 20 true; GpioOutput 6 false; GpioOutput 5 false;
     Sleep 250000]
    true [Some idle_reply; Some idle_reply; Some idle_reply].

(** Code points above ASCII left as they are: enough for ASCII text. *)
Definition ascii_only_upper (c : N) : list N := [c].

(** ** More of the driver *)

(** [Icon] (hat.py, line 48) *)
Module Icon.
Inductive t : Type := BLANK | UP_DOWN | DOWN | UP | DOT | PAUSE | CHECK | X.
Definition value (i : t) : Z :=
  match i with
  | BLANK => 0 | UP_DOWN => 1 | DOWN => 2 | UP => 3
  | DOT => 4 | PAUSE => 5 | CHECK => 6 | X => 7
  end.
End Icon.

(** [Text] (hat.py, line 59) *)
Module Text.
Inductive t : Type :=
| BLANK | INIT | POWER_OFF | ERROR | CAL | MANUAL | CLASSIC | BRAIN
| CUSTOM1 | CUSTOM2 | INFO | CAL_INSTR | CAL_COMPLETE | CAL_CANCELED
| CAL_FAILED | VERS_IP_SN | UPDATE_BRAIN | UPDATE_SYSTEM.
Definition value (x : t) : Z :=
  match x with
  | BLANK => 0 | INIT => 1 | POWER_OFF => 2 | ERROR => 3 | CAL => 4
  | MANUAL => 5 | CLASSIC => 6 | BRAIN => 7 | CUSTOM1 => 8 | CUSTOM2 => 9
  | INFO => 10 | CAL_INSTR => 11 | CAL_COMPLETE => 12 | CAL_CANCELED => 13
  | CAL_FAILED => 14 | VERS_IP_SN => 15 | UPDATE_BRAIN => 16
  | UPDATE_SYSTEM => 17
  end.
End Text.

(** [Hat.__enter__] (hat.py, line 204) returns the object itself. *)
Definition __enter__ : M unit := ret tt.

(** [Hat.__exit__] (hat.py, line 207) closes and returns [None]. *)
Definition __exit__ : M unit := close.

(** [with hat: body]: [__exit__] runs on both ways out of the block; as it
    returns [None], an exception of the block is raised again after it. *)
Definition with_hat {A} (body : M A) : M A :=
  fun w =>
    match (__enter__ ;;; body)%hat w with
    | (Ok a, w') =>
        match __exit__ w' with
        | (Ok _, w'') => (Ok a, w'')
        | (Raise e, w'') => (Raise e, w'')
        end
    | (Raise e, w') =>
        match __exit__ w' with
        | (Ok _, w'') => (Raise e, w'')
        | (Raise e', w'') => (Raise e', w'')
        end
    end.

(** The events of a successful construction, in order. *)
Definition power_up (spi_bus spi_device spi_max_speed_hz : Z) : list event :=
  [SpiOpen spi_bus spi_device spi_max_speed_hz; GpioSetup;
   GpioOutput GpioPin.HAT_EN false; Sleep 20000;
   GpioOutput GpioPin.HAT_EN true; GpioOutput GpioPin.HAT_RESET false;
   GpioOutput GpioPin.BOOT_EN false; Sleep 250000].

(** Events that open the bus or configure or drive the mode pins. *)
Definition drives_pins (e : event) : bool :=
  match e with
  | SpiOpen _ _ _ | GpioSetup | GpioOutput _ _ => true
  | _ => false
  end.

(** A reply with the joystick at raw bytes 127 and 128. *)
Definition far_reply : list byte :=
  [x00; x7f; x80; x00; x00; x00; x00; x00; x00]%byte.

(** [math.isnan] *)
Definition isnan (f : float) : bool := negb (f =? f)%float.

(** The trace is [prefix] followed by events that leave the pins alone. *)
Definition quiet_tail (prefix : list event) (w : World) : Prop :=
  exists rest,
    trace w = prefix ++ rest /\ Forall (fun e => drives_pins e = false) rest.

(** ** Controllers (controllers.py) *)

(** [-a] *)
Definition py_neg (a : pynum) : pynum :=
  match a with
  | PyInt z => PyInt (- z)
  | PyFloat f => PyFloat (- f)
  end.

(** NumPy's [clip] on floats takes the larger of the value and the lower
    bound, then the smaller of that and the upper bound; a [nan] on the left
    of either step is kept. *)
Definition np_max (a b : float) : float :=
  if isnan a then a else if (b <? a)%float then a else b.

Definition np_min (a b : float) : float :=
  if isnan a then a else if (a <? b)%float then a else b.

(** [np.clip(a, a_min, a_max)] on scalars: among ints it stays an int,
    otherwise all three are taken as floats. *)
Definition np_clip (a a_min a_max : pynum) : result pynum :=
  match a, a_min, a_max with
  | PyInt z, PyInt lo, PyInt hi => Ok (PyInt (Z.min (Z.max z lo) hi))
  | _, _, _ =>
      (fa <- as_float a ;;
       flo <- as_float a_min ;;
       fhi <- as_float a_max ;;
       Ok (PyFloat (np_min (np_max fa flo) fhi)))%res
  end.

(** [Vector2] comes from another module; the controllers here only build
    one from its two coordinates. *)
Definition Vector2 : Type := (pynum * pynum)%type.

(** [pid_controller(Kp, Ki, Kd, max_angle)(state)] (controllers.py, line 18);
    [state] is given unpacked: the six numbers of [env_state] and
    [ball_detected] ([buttons] is not used).  The second component of the
    returned pair is always the empty dict and is left out. *)
Definition pid_controller (Kp Ki Kd max_angle : pynum)
    (x y vel_x vel_y sum_x sum_y : pynum) (ball_detected : bool)
  : result Vector2 :=
  if ball_detected then
    (a1 <- py_mul Kp x ;;
     a2 <- py_mul Ki sum_x ;;
     a3 <- py_add a1 a2 ;;
     a4 <- py_mul Kd vel_x ;;
     action_x <- py_add a3 a4 ;;
     b1 <- py_mul Kp y ;;
     b2 <- py_mul Ki sum_y ;;
     b3 <- py_add b1 b2 ;;
     b4 <- py_mul Kd vel_y ;;
     action_y <- py_add b3 b4 ;;
     action_x <- np_clip action_x (py_neg max_angle) max_angle ;;
     action_y <- np_clip action_y (py_neg max_angle) max_angle ;;
     Ok (action_x, action_y))%res
  else Ok (PyInt 0, PyInt 0).

(** [Kp * p + Ki * s + Kd * v]: one coordinate of the action before it is
    clipped. *)
Definition pid_sum (Kp Ki Kd p s v : pynum) : result pynum :=
  (a1 <- py_mul Kp p ;;
   a2 <- py_mul Ki s ;;
   a3 <- py_add a1 a2 ;;
   a4 <- py_mul Kd v ;;
   py_add a3 a4)%res.

(** [a] is [f] clipped to [lo, hi]: it is [nan] exactly when [f] is, it is
    one of [f], [lo] and [hi], it lies between the bounds when [f] is a
    number, and it equals [f] when [f] lies between the bounds. *)
Definition clipped (lo hi f a : float) : Prop :=
  isnan a = isnan f
  /\ (a = f \/ a = lo \/ a = hi)
  /\ (isnan f = false -> (lo <=? a)%float = true /\ (a <=? hi)%float = true)
  /\ ((lo <=? f)%float = true -> (f <=? hi)%float = true ->
      (a =? f)%float = true).

(** ** Debug decorators (control/debug.py) *)

Module Debug.

Section Decorators.

(** The dict handed to [decorate], the world the callbacks and the image
    writer act on, and the exceptions ([Exception] and below) they raise. *)
Variables Args Outside Exc : Type.

Inductive outcome (A : Type) : Type :=
| Returned (a : A)
| Raised (e : Exc).
Arguments Returned {A} a.
Arguments Raised {A} e.

(** A callback is called on [args]; it has no hold on the decorator that
    calls it. *)
Definition callback : Type := Args -> Outside -> outcome unit * Outside.

(** The attributes [callbacks], [filename] and [disable]. *)
Record FileDecorator : Type := mkFileDecorator {
  callbacks : list callback;
  filename : string;
  disable : bool
}.

(** The decorator, the world outside, and the calls of [cv2.imwrite] made so
    far (file name and [args], oldest first). *)
Record World : Type := mkWorld {
  deco : FileDecorator;
  outside : Outside;
  written : list (string * Args)
}.

(** The statement under [try]:
    [cv2.imwrite(self.filename, args[SENSOR_IMG_ARG], [cv2.IMWRITE_JPEG_QUALITY, 80])],
    the lookup in [args] included. *)
Variable imwrite : string -> Args -> Outside -> outcome unit * Outside.

(** [CallbackDecorator.addCallback] (debug.py, line 19) *)
Definition addCallback (fn : callback) (w : World) : World :=
  mkWorld (mkFileDecorator (callbacks (deco w) ++ [fn]) (filename (deco w))
             (disable (deco w)))
    (outside w) (written w).

(** [for callback in l: callback(args)] *)
Fixpoint run_callbacks (l : list callback) (args : Args) (o : Outside)
  : outcome unit * Outside :=
  match l with
  | [] => (Returned tt, o)
  | c :: l' =>
      match c args o with
      | (Returned _, o') => run_callbacks l' args o'
      | (Raised e, o') => (Raised e, o')
      end
  end.

(** [CallbackDecorator.decorate] (debug.py, line 22) *)
Definition CallbackDecorator_decorate (args : Args) (w : World)
  : outcome unit * World :=
  match run_callbacks (callbacks (deco w)) args (outside w) with
  | (r, o') => (r, mkWorld (deco w) o' (written w))
  end.

(** [FileDecorator.decorate] (debug.py, line 39) *)
Definition decorate (args : Args) (w : World) : outcome unit * World :=
  match CallbackDecorator_decorate args w with
  | (Raised e, w') => (Raised e, w')
  | (Returned _, w') =>
      if disable (deco w') then (Returned tt, w')
      else
        let log := written w' ++ [(filename (deco w'), args)] in
        match imwrite (filename (deco w')) args (outside w') with
        | (Returned _, o') => (Returned tt, mkWorld (deco w') o' log)
        | (Raised _, o') =>
            (Returned tt,
             mkWorld (mkFileDecorator (callbacks (deco w'))
                        (filename (deco w')) true)
               o' log)
        end
  end.

(** The calls a user makes on a [FileDecorator]. *)
Inductive Op : Type :=
| OpAddCallback (fn : callback)
| OpDecorate (args : Args).

Definition step (op : Op) (w : World) : World :=
  match op with
  | OpAddCallback fn => addCallback fn w
  | OpDecorate args => snd (decorate args w)
  end.

Definition steps (ops : list Op) (w : World) : World :=
  fold_left (fun w op => step op w) ops w.

End Decorators.

Arguments Returned {Exc A} a.
Arguments Raised {Exc A} e.
Arguments mkFileDecorator {Args Outside Exc} callbacks filename disable.
Arguments callbacks {Args Outside Exc} f.
Arguments filename {Args Outside Exc} f.
Arguments disable {Args Outside Exc} f.
Arguments mkWorld {Args Outside Exc} deco outside written.
Arguments deco {Args Outside Exc} w.
Arguments outside {Args Outside Exc} w.
Arguments written {Args Outside Exc} w.
Arguments addCallback {Args Outside Exc} fn w.
Arguments run_callbacks {Args Outside Exc} l args o.
Arguments CallbackDecorator_decorate {Args Outside Exc} args w.
Arguments decorate {Args Outside Exc} imwrite args w.
Arguments OpAddCallback {Args Outside Exc} fn.
Arguments OpDecorate {Args Outside Exc} args.
Arguments step {Args Outside Exc} imwrite op w.
Arguments steps {Args Outside Exc} imwrite ops w.

End Debug.

(** ** Ball status row (stream/ball_detect.py) *)

Module BallDetect.

(** The values held by the entity dict. *)
Inductive pyval : Type :=
| VStr (s : string)
| VBool (b : bool).

(** A dict with string keys, in insertion order. *)
Definition dict : Type := list (string * pyval).

(** [d[k] = v] *)
Fixpoint dict_set (d : dict) (k : string) (v : pyval) : dict :=
  match d with
  | [] => [(k, v)]
  | (k', v') :: d' =>
      if String.eqb k' k then (k', v) :: d' else (k', v') :: dict_set d' k v
  end.

(** [d.get(k)] *)
Fixpoint dict_get (d : dict) (k : string) : option pyval :=
  match d with
  | [] => None
  | (k', v') :: d' => if String.eqb k' k then Some v' else dict_get d' k
  end.

(** [s.replace(".", "")] *)
Fixpoint remove_dots (s : string) : string :=
  match s with
  | EmptyString => EmptyString
  | String c s' =>
      if Ascii.eqb c "."%char then remove_dots s'
      else String c (remove_dots s')
  end.

(** Dict objects live in a store and are handed around by reference. *)
Definition ref : Type := nat.
Definition store : Type := list dict.

Fixpoint store_update (h : store) (r : ref) (f : dict -> dict) : store :=
  match h, r with
  | [], _ => []
  | d :: h', O => f d :: h'
  | d :: h', S r' => d :: store_update h' r' f
  end.

(** The private attributes of a [Ball]. *)
Record Ball : Type := mkBall {
  local_ip : string;
  moab_local_ip : string;
  product : string;
  status_of_ball : bool;
  ball : ref
}.

(** [Ball.__init__] (ball_detect.py, line 21); [host_ip] is what
    [getHostIP()] gives, an address or the socket's error. *)
Definition Ball__init__ (host_ip : result string) (h : store)
  : result (Ball * store) :=
  (ip <- host_ip ;;
   let moab := remove_dots ip in
   let d := [("PartitionKey"%string, VStr moab);
             ("RowKey"%string, VStr "ball detect");
             ("IP"%string, VStr ip);
             ("STATUS"%string, VBool false)] in
   Ok (mkBall ip moab "ball detect" false (List.length h), h ++ [d]))%res.

(** [Ball.getEntity] (ball_detect.py, line 33): writes into the one dict and
    returns that dict, not a copy. *)
Definition getEntity (self : Ball) (status : pyval) (h : store) : ref * store :=
  (ball self,
   store_update h (ball self) (fun d => dict_set d "STATUS" status)).

(** [getEntity] called with each status in turn; the references returned. *)
Fixpoint getEntities (self : Ball) (statuses : list pyval) (h : store)
  : list ref * store :=
  match statuses with
  | [] => ([], h)
  | s :: rest =>
      let '(r, h1) := getEntity self s h in
      let '(rs, h2) := getEntities self rest h1 in
      (r :: rs, h2)
  end.

End BallDetect.

(** ** Info screen (hat.py, lines 112-126 and 320-327) *)

(** [str(z)] for an int, as code points. *)
Definition py_str_int (z : Z) : pystr :=
  str_of_string (NilZero.string_of_int (Z.to_int z)).

(** [s.split(".")] *)
Fixpoint split_dot (s : pystr) : list pystr :=
  match s with
  | [] => [[]]
  | c :: s' =>
      if (c =? 46)%N then [] :: split_dot s'
      else
        match split_dot s' with
        | [] => [[c]]
        | word :: words => (c :: word) :: words
        end
  end.

Section InfoScreen.

Variable unicode_upper : N -> list N.

(** The builtin [int] on a [str]. *)
Variable py_int : pystr -> result Z.

(** [_get_sw_version()]; [MOABIAN] is the environment variable, if set. *)
Definition _get_sw_version (MOABIAN : option pystr) : result (list Z) :=
  let ver_string :=
    match MOABIAN with
    | Some v => v
    | None => str_of_string "1.0.0"
    end in
  rmap py_int (split_dot ver_string).

(** [_get_host_ip()]; [sockname] is what connecting the socket and asking
    its name gives: the address as text, or the socket's error. *)
Definition _get_host_ip (sockname : result pystr) : result (list Z) :=
  (ip <- sockname ;; rmap py_int (split_dot ip))%res.

(** [Hat.print_info_screen]; each of the two unpackings raises [ValueError]
    when the list has another length. *)
Definition print_info_screen (MOABIAN : option pystr)
    (sockname : result pystr) : M unit :=
  (ver <- lift (_get_sw_version MOABIAN) ;;
   match ver with
   | [sw_major; sw_minor; sw_bug] =>
       ip <- lift (_get_host_ip sockname) ;;
       match ip with
       | [ip1; ip2; ip3; ip4] =>
           print_arbitrary_string unicode_upper
             (str_of_string "PROJECT MOAB" ++ [10%N]
              ++ str_of_string "SW VERSION" ++ [10%N]
              ++ py_str_int sw_major ++ [46%N] ++ py_str_int sw_minor
              ++ [46%N] ++ py_str_int sw_bug ++ [10%N]
              ++ str_of_string "IP ADDRESS:" ++ [10%N]
              ++ py_str_int ip1 ++ [46%N] ++ py_str_int ip2 ++ [46%N]
              ++ py_str_int ip3 ++ [46%N] ++ py_str_int ip4 ++ [10%N])
       | _ => throw ValueError
       end
   | _ => throw ValueError
   end)%hat.

End InfoScreen.

(** Plain decimal text read as an int. *)
Definition decimal_int (s : pystr) : result Z :=
  match NilZero.int_of_string
          (string_of_list_ascii (List.map ascii_of_N s)) with
  | Some d => Ok (Z.of_int d)
  | None => Raise ValueError
  end.

(** ** Truncation in [set_angles] *)

(** The frame [set_angles(0, y)] builds with offsets [(0, o, o)]. *)
Definition cancelling_frame (y o : Z) : result (list Z) :=
  ('(plate_x, plate_y) <-
      _xy_offsets (PyInt 0) (PyInt y) (PyInt 0, PyInt o, PyInt o) ;;
   arr <- np_array_int8
            [PyInt SendCommand.SET_PLATE_ANGLES; plate_x; plate_y] ;;
   right_pad_array arr 9)%res.

(** The y entry stays on the side of zero of [y] and within one of it, and
    the x entry is [-o]. *)
Definition cancelling_check (y o : Z) : bool :=
  match cancelling_frame y o with
  | Ok [c; vx; vy; 0; 0; 0; 0; 0; 0] =>
      (c =? SendCommand.SET_PLATE_ANGLES) && (vx =? - o)
      && (Z.abs vy <=? Z.abs y) && (Z.abs (y - vy) <=? 1)
  | _ => false
  end.

(** The integers from [lo], [n] of them. *)
Definition Z_range (lo : Z) (n : nat) : list Z :=
  List.map (fun i => lo + Z.of_nat i) (seq 0 n).

(** ** Single-instance guard (procid.py) *)

Module ProcId.

(** What [os.kill(pid, SIGINT)] does: it returns, raises [OSError] (with
    [errno] equal to [ESRCH] or not; [text] is [str(err)]), raises another
    [Exception] ([text] is its [str]), or raises [KeyboardInterrupt]: the
    signal reached the calling process itself, whose handler for [SIGINT]
    (Python's default one) raises it in the caller.  [KeyboardInterrupt] is
    not an [Exception]. *)
Inductive kill_outcome : Type :=
| Delivered
| RaisesOSError (esrch : bool) (text : string)
| RaisesOther (text : string)
| RaisesKeyboardInterrupt.

(** How a call ends: as a [result] (it returns, or raises one of the
    exceptions of [exn]), or with a [KeyboardInterrupt] on its way out. *)
Inductive ending (A : Type) : Type :=
| Ended (r : result A)
| KeyboardInterrupt.
Arguments Ended {A} r.
Arguments KeyboardInterrupt {A}.

(** The regular files by path, the pids [os.kill] was called on with
    [SIGINT], and the texts printed, oldest first. *)
Record OS : Type := mkOS {
  files : list (string * string);
  killed : list Z;
  stdout : list string
}.

Fixpoint lookup (fs : list (string * string)) (path : string) : option string :=
  match fs with
  | [] => None
  | (p, content) :: fs' =>
      if String.eqb p path then Some content else lookup fs' path
  end.

(** [open(path, 'w')] and [write(content)]: the file is created or
    replaced. *)
Fixpoint write_file (fs : list (string * string)) (path content : string)
  : list (string * string) :=
  match fs with
  | [] => [(path, content)]
  | (p, c) :: fs' =>
      if String.eqb p path then (p, content) :: fs'
      else (p, c) :: write_file fs' path content
  end.

(** [str(pid)] *)
Definition py_str (z : Z) : string := NilZero.string_of_int (Z.to_int z).

Definition say (text : string) (os : OS) : OS :=
  mkOS (files os) (killed os) (stdout os ++ [text]).

Section KillDoppelganger.

(** The builtin [int] on the text of the file, and the system's answer to
    [os.kill(pid, SIGINT)].  Files that exist can be read and [pid_path]
    can be written. *)
Variable py_int : string -> result Z.
Variable os_kill : Z -> kill_outcome.

(** The pid the file names, when there is a file and it reads as an int. *)
Definition twin_of (pid_path : string) (os : OS) : list Z :=
  match lookup (files os) pid_path with
  | Some content =>
      match py_int content with
      | Ok twin_pid => [twin_pid]
      | Raise _ => []
      end
  | None => []
  end.

(** The last two statements: record our pid and return it. *)
Definition record_pid (our_pid : Z) (pid_path : string) (os : OS)
  : ending Z * OS :=
  (Ended (Ok our_pid),
   mkOS (write_file (files os) pid_path (py_str our_pid)) (killed os)
     (stdout os)).

(** [kill_doppelganger(pid_path)] (procid.py, line 4); [our_pid] is
    [os.getpid()].  The two handlers of the [try] catch [OSError] and
    [Exception]; a [KeyboardInterrupt] out of [os.kill] passes both and
    leaves the function before the pid file is written. *)
Definition kill_doppelganger (our_pid : Z) (pid_path : string) (os : OS)
  : ending Z * OS :=
  match lookup (files os) pid_path with
  | Some content =>
      match py_int content with
      | Raise e => (Ended (Raise e), os)
      | Ok twin_pid =>
          let os1 :=
            say ("Sending SIGINT to " ++ py_str twin_pid ++ "...") os in
          let os2 :=
            mkOS (files os1) (killed os1 ++ [twin_pid]) (stdout os1) in
          match os_kill twin_pid with
          | Delivered => record_pid our_pid pid_path (say "sent." os2)
          | RaisesOSError true _ =>
              record_pid our_pid pid_path (say "no such process." os2)
          | RaisesOSError false text =>
              record_pid our_pid pid_path (say ("oserror " ++ text) os2)
          | RaisesOther text =>
              record_pid our_pid pid_path
                (say ("Unexpected exception " ++ text ++ " which is ok") os2)
          | RaisesKeyboardInterrupt => (KeyboardInterrupt, os2)
          end
      end
  | None => record_pid our_pid pid_path os
  end.

End KillDoppelganger.

(** Plain decimal text read as an int. *)
Definition decimal_int (s : string) : result Z :=
  match NilZero.int_of_string s with
  | Some d => Ok (Z.of_int d)
  | None => Raise ValueError
  end.

End ProcId.

(** * Properties *)

Example demo_world_constructed :
  __init__ demo_platform 0 0 10000 (PyInt 2, PyInt 0, PyInt 0)
  = Ok (demo_world (PyInt 2, PyInt 0, PyInt 0)).
Proof. reflexivity. Qed.

Example uint8_to_int8_200 : _uint8_to_int8 200 = -56.
Proof. reflexivity. Qed.

Example truediv_56 : int_truediv (-56) 100 = Ok (-0.56)%float.
Proof. vm_compute. reflexivity. Qed.

Example truediv_third : int_truediv 1 3 = Ok (1 / 3)%float.
Proof. vm_compute. reflexivity. Qed.

Example truediv_zero_sign : int_truediv 0 (-5) = Ok (-0)%float.
Proof. vm_compute. reflexivity. Qed.

Example float_of_big_int :
  int_to_float (2 ^ 53 + 1) = Ok 9007199254740992%float.
Proof. vm_compute. reflexivity. Qed.

Example utf8_euro : utf8_encode [8364%N] = Ok [0xE2; 0x82; 0xAC].
Proof. reflexivity. Qed.

Example upper_hi :
  str_upper ascii_only_upper (str_of_string "hi") = str_of_string "HI".
Proof. reflexivity. Qed.

(** ** The result monads *)

Lemma Ok_inj {A} (a b : A) : Ok a = Ok b -> a = b.
Proof. congruence. Qed.

Lemma rmap_length {A B} (f : A -> result B) (l : list A) (l' : list B) :
  rmap f l = Ok l' -> List.length l' = List.length l.
Proof.
  revert l'. induction l as [|a l IH]; intros l' H; simpl in H.
  - inversion H. reflexivity.
  - destruct (f a) as [b|e]; simpl in H; [|discriminate].
    destruct (rmap f l) as [bs|e]; simpl in H; [|discriminate].
    inversion H. simpl. f_equal. apply IH. reflexivity.
Qed.

Lemma truediv_byte (b : byte) :
  int_truediv (_uint8_to_int8 (byte_val b)) 100
  = Ok (Z2float (_uint8_to_int8 (byte_val b)) / 100)%float.
Proof. destruct b; vm_compute; reflexivity. Qed.

(** ** The transceiver *)

Lemma frames_app (t1 t2 : list event) :
  frames (t1 ++ t2) = frames t1 ++ frames t2.
Proof.
  induction t1 as [|e t1 IH]; simpl; [reflexivity|].
  destruct e; simpl; rewrite ?IH; reflexivity.
Qed.

Ltac run_monad :=
  cbv [bind lift ret throw get_hat set_hat emit sleep spi_xfer close
       set_menu_btn set_joy_btn set_joy_x set_joy_y set_offsets with_offsets
       index nth_error JoystickByteIndex.X JoystickByteIndex.Y];
  cbn [hat trace spi_is_open incoming servo_offsets menu_btn joy_btn joy_x
       joy_y fst snd].

(** [_save_buttons] on each shape of reply. *)
Lemma save_buttons_run (r : list byte) (w : World) :
  exists res h',
    _save_buttons r w
    = (res, mkWorld h' (trace w) (spi_is_open w) (incoming w))
    /\ servo_offsets h' = servo_offsets (hat w)
    /\ match r with
       | [] => res = Raise IndexError /\ h' = hat w
       | b0 :: r1 =>
           menu_btn h' = (byte_val b0 =? Button.MENU)
           /\ joy_btn h' = (byte_val b0 =? Button.JOYSTICK)
           /\ match r1 with
              | bx :: by_ :: _ =>
                  res = Ok tt
                  /\ joy_x h'
                     = PyFloat (Z2float (_uint8_to_int8 (byte_val bx)) / 100)
                  /\ joy_y h'
                     = PyFloat (Z2float (_uint8_to_int8 (byte_val by_)) / 100)
              | _ => res = Raise IndexError
              end
       end.
Proof.
  unfold _save_buttons. destruct w as [h tr o inc].
  destruct r as [|b0 [|bx [|by_ rest]]]; run_monad;
    rewrite ?truediv_byte; run_monad;
    do 2 eexists; (split; [reflexivity|]); cbn; repeat split; reflexivity.
Qed.

(** [trancieve] either refuses the packet and does nothing, or sleeps, hands
    the padded frame to the bus and decodes the reply if there is one. *)
Lemma trancieve_run (packet : list Z) (w : World) :
  match right_pad_array packet 9 with
  | Raise e => trancieve packet w = (Raise e, w)
  | Ok f =>
      let tr := trace w ++ [Sleep 1000; Xfer f] in
      if spi_is_open w then
        match incoming w with
        | Some reply :: rest =>
            trancieve packet w
            = _save_buttons reply (mkWorld (hat w) tr true rest)
        | None :: rest =>
            trancieve packet w = (Raise OSError, mkWorld (hat w) tr true rest)
        | [] =>
            trancieve packet w = (Raise OSError, mkWorld (hat w) tr true [])
        end
      else
        trancieve packet w
        = (Raise OSError, mkWorld (hat w) tr false (incoming w))
  end.
Proof.
  unfold trancieve. destruct w as [h tr o inc].
  destruct (right_pad_array packet 9) as [f|e]; run_monad; [|reflexivity].
  rewrite <- app_assoc. cbn [app].
  destruct o; [|reflexivity].
  destruct inc as [|[reply|] rest]; reflexivity.
Qed.

Lemma store_int8_ok (z : Z) : fits_long z -> store_int8 z = Ok (wrap_int8 z).
Proof.
  unfold fits_long, store_int8. intros [H1 H2].
  apply Z.leb_le in H1. apply Z.ltb_lt in H2. rewrite H1, H2. reflexivity.
Qed.

Lemma wrap_int8_small (z : Z) : fits_int8 z -> wrap_int8 z = z.
Proof.
  unfold fits_int8, wrap_int8. intros H.
  rewrite Z.mod_small by lia. lia.
Qed.

Lemma wire_byte_wrap (z : Z) : wire_byte (wrap_int8 z) = wire_byte z.
Proof.
  unfold wire_byte, wrap_int8.
  replace ((z + 128) mod 256 - 128) with ((z + 128) mod 256 + (-1) * 256 + 128) by lia.
  rewrite <- Z.add_mod_idemp_l by lia.
  rewrite Z.mod_add by lia. rewrite Z.mod_mod by lia.
  rewrite Z.add_mod_idemp_l by lia.
  replace (z + 128 + 128) with (z + 1 * 256) by lia.
  apply Z.mod_add. lia.
Qed.

Lemma fits_int8_long (z : Z) : fits_int8 z -> fits_long z.
Proof. unfold fits_int8, fits_long. lia. Qed.

Lemma rmap_store_int8 (l : list Z) :
  Forall fits_long l -> rmap store_int8 l = Ok (List.map wrap_int8 l).
Proof.
  induction 1 as [|z l Hz Hl IH]; simpl; [reflexivity|].
  rewrite (store_int8_ok z Hz), IH. reflexivity.
Qed.

Lemma right_pad_array_length (arr f : list Z) :
  right_pad_array arr 9 = Ok f -> List.length f = 9%nat.
Proof.
  unfold right_pad_array.
  destruct (List.length arr <? 9)%nat eqn:Hlt.
  - apply Nat.ltb_lt in Hlt.
    destruct (rmap store_int8 arr) as [vals|e] eqn:Hv; cbn [rbind];
      [|discriminate].
    apply rmap_length in Hv.
    destruct (List.length arr <=? 9)%nat eqn:Hle.
    + intros H. apply Ok_inj in H. subst f.
      rewrite length_app, repeat_length. lia.
    + apply Nat.leb_gt in Hle. lia.
  - destruct (List.length arr =? 9)%nat eqn:Heq; [|discriminate].
    apply Nat.eqb_eq in Heq. intros H. apply Ok_inj in H. subst f. exact Heq.
Qed.

(** ** What every call keeps *)

Lemma keeps_bind {A B} (I : World -> Prop) (m : M A) (k : A -> M B)
    (V : A -> Prop) (V' : B -> Prop) :
  keeps I m V -> (forall a, V a -> keeps I (k a) V') -> keeps I (bind m k) V'.
Proof.
  intros Hm Hk w Hw. unfold bind.
  destruct (Hm w Hw) as [Hi Hv].
  destruct (m w) as [[a|e] w']; cbn [fst snd] in *.
  - apply Hk; auto.
  - split; [exact Hi|discriminate].
Qed.

Lemma keeps_lift {A} (I : World -> Prop) (r : result A) :
  keeps I (lift r) (fun a => r = Ok a).
Proof. intros w Hw. split; [exact Hw|]. intros a H. exact H. Qed.

Lemma keeps_ret {A} (I : World -> Prop) (a : A) :
  keeps I (ret a) (fun _ => True).
Proof. intros w Hw. split; [exact Hw|trivial]. Qed.

Lemma keeps_throw {A} (I : World -> Prop) (e : exn) :
  keeps I (@throw A e) (fun _ => True).
Proof. intros w Hw. split; [exact Hw|trivial]. Qed.

Lemma keeps_get_hat (I : World -> Prop) : keeps I get_hat (fun _ => True).
Proof. intros w Hw. split; [exact Hw|trivial]. Qed.

Lemma keeps_sleep (us : Z) : keeps consistent (sleep us) (fun _ => True).
Proof.
  intros w [Hf Hb]. split; [|trivial].
  split; cbn; [|exact Hb].
  rewrite frames_app, app_nil_r. exact Hf.
Qed.

Lemma keeps_spi_xfer (f : list Z) :
  List.length f = 9%nat -> keeps consistent (spi_xfer f) (fun _ => True).
Proof.
  intros Hlen w [Hf Hb]. split; [|trivial].
  assert (Hf' : Forall (fun f => List.length f = 9%nat)
                  (frames (trace w ++ [Xfer f]))).
  { rewrite frames_app. apply Forall_app. split; [exact Hf|].
    constructor; [exact Hlen|constructor]. }
  unfold spi_xfer.
  destruct (spi_is_open w); [|split; assumption].
  destruct (incoming w) as [|[reply|] rest]; split; assumption.
Qed.

Lemma buttons_exclusive (b0 : Z) :
  (b0 =? Button.MENU) && (b0 =? Button.JOYSTICK) = false.
Proof.
  unfold Button.MENU, Button.JOYSTICK.
  destruct (Z.eqb_spec b0 1) as [->|]; reflexivity.
Qed.

Lemma keeps_save_buttons (r : list byte) :
  keeps consistent (_save_buttons r) (fun _ => True).
Proof.
  intros w [Hf Hb]. split; [|trivial].
  destruct (save_buttons_run r w) as (res & h' & -> & _ & Hr).
  split; cbn [snd trace hat]; [exact Hf|].
  destruct r as [|b0 r1].
  - destruct Hr as [_ ->]. exact Hb.
  - destruct Hr as (Hm & Hj & _). unfold both_pressed.
    rewrite Hm, Hj. apply buttons_exclusive.
Qed.

Lemma keeps_trancieve (packet : list Z) :
  keeps consistent (trancieve packet) (fun _ => True).
Proof.
  unfold trancieve.
  eapply keeps_bind; [apply keeps_lift|]. intros f Hf.
  eapply keeps_bind; [apply keeps_sleep|]. intros _ _.
  eapply keeps_bind;
    [apply keeps_spi_xfer, (right_pad_array_length packet), Hf|].
  intros reply _. apply keeps_save_buttons.
Qed.

Lemma keeps_set_servos (s1 s2 s3 : pynum) :
  keeps consistent (set_servos s1 s2 s3) (fun _ => True).
Proof.
  unfold set_servos.
  eapply keeps_bind; [apply keeps_lift|]. intros arr _.
  eapply keeps_bind; [apply keeps_trancieve|]. intros _ _.
  apply keeps_sleep.
Qed.

Lemma keeps_set_angles (x y : pynum) :
  keeps consistent (set_angles x y) (fun _ => True).
Proof.
  unfold set_angles.
  eapply keeps_bind; [apply keeps_get_hat|]. intros self _.
  eapply keeps_bind; [apply keeps_lift|]. intros [px py] _.
  eapply keeps_bind; [apply keeps_lift|]. intros arr _.
  eapply keeps_bind; [apply keeps_trancieve|]. intros _ _.
  apply keeps_sleep.
Qed.

Lemma keeps_for_each {A} (I : World -> Prop) (l : list A) (body : A -> M unit) :
  (forall a, keeps I (body a) (fun _ => True)) ->
  keeps I (for_each l body) (fun _ => True).
Proof.
  intros Hb. induction l as [|a l IH]; cbn [for_each].
  - apply keeps_ret.
  - eapply keeps_bind; [apply Hb|]. intros _ _. exact IH.
Qed.

Section UnicodeFacts.

Variable unicode_upper : N -> list N.

Lemma keeps_print_arbitrary_string (s : pystr) :
  keeps consistent (print_arbitrary_string unicode_upper s) (fun _ => True).
Proof.
  unfold print_arbitrary_string.
  eapply keeps_bind; [apply keeps_lift|]. intros bs _.
  eapply keeps_bind.
  { destruct (_ <=? 256)%nat;
      [apply keeps_ret|apply (keeps_throw (A := unit))]. }
  intros _ _.
  eapply keeps_bind.
  { apply keeps_for_each. intros i.
    eapply keeps_bind; [apply keeps_lift|]. intros msg _.
    apply keeps_trancieve. }
  intros _ _. apply keeps_trancieve.
Qed.

Lemma keeps_run (c : Call) :
  keeps consistent (run unicode_upper c) (fun _ => True).
Proof.
  destruct c; cbn [run].
  - apply keeps_trancieve.
  - apply keeps_trancieve.
  - apply keeps_trancieve.
  - apply keeps_set_angles.
  - apply keeps_set_servos.
  - intros w [Hf Hb]. split; [split; [exact Hf|exact Hb]|trivial].
  - apply keeps_trancieve.
  - apply keeps_set_servos.
  - apply keeps_set_servos.
  - apply keeps_print_arbitrary_string.
  - intros w [Hf Hb]. split; [|trivial]. split; [|exact Hb].
    cbn. rewrite frames_app, app_nil_r. exact Hf.
Qed.

Lemma init_run pf bus dev hz so w :
  __init__ pf bus dev hz so = Ok w ->
  hat w = mkHat so false false (PyInt 0) (PyInt 0)
  /\ trace w
     = [SpiOpen bus dev hz; GpioSetup; GpioOutput GpioPin.HAT_EN false;
        Sleep 20000; GpioOutput GpioPin.HAT_EN true;
        GpioOutput GpioPin.HAT_RESET false;
        GpioOutput GpioPin.BOOT_EN false; Sleep 250000]
  /\ spi_is_open w = true
  /\ incoming w = answers pf.
Proof.
  unfold __init__.
  destruct (spidev_opens pf); cbn [negb]; [|discriminate].
  destruct (gpio_sets_up pf); cbn [negb]; [|discriminate].
  cbn. intros H. apply Ok_inj in H. subst w. cbn. auto.
Qed.

Lemma reachable_consistent (w : World) :
  reachable unicode_upper w -> consistent w.
Proof.
  induction 1 as [pf bus dev hz so w Hinit|c w Hr IH].
  - destruct (init_run _ _ _ _ _ _ Hinit) as (Hh & Ht & _).
    split; [rewrite Ht|rewrite Hh]; cbn; [constructor|reflexivity].
  - apply (keeps_run c w IH).
Qed.

End UnicodeFacts.

(** ** Packet codec *)

(** C4: a packet of more than nine entries (opcode plus more than eight
    payload bytes) makes [right_pad_array] raise [ValueError], whatever
    target length is asked for; [trancieve] then raises before it sleeps or
    touches the bus, so that nothing, truncated or not, is handed to
    [spi.xfer]. *)
Theorem oversized_packet_rejected (packet : list Z) (length : nat) (w : World) :
  (9 < List.length packet)%nat ->
  right_pad_array packet length = Raise ValueError
  /\ trancieve packet w = (Raise ValueError, w).
Proof.
  intros Hlen.
  assert (H : forall n, right_pad_array packet n = Raise ValueError).
  { intros n. unfold right_pad_array.
    destruct (Nat.ltb_spec (List.length packet) 9) as [Hlt|_]; [lia|].
    destruct (Nat.eqb_spec (List.length packet) 9) as [Heq|_]; [lia|].
    reflexivity. }
  split; [apply H|].
  pose proof (trancieve_run packet w) as Hrun.
  rewrite (H 9%nat) in Hrun. exact Hrun.
Qed.

Lemma oversized_packet_rejected_witness :
  right_pad_array [128; 1; 2; 3; 4; 5; 6; 7; 8; 9] 9 = Raise ValueError
  /\ trancieve [128; 1; 2; 3; 4; 5; 6; 7; 8; 9]
       (demo_world (PyInt 0, PyInt 0, PyInt 0))
     = (Raise ValueError, demo_world (PyInt 0, PyInt 0, PyInt 0)).
Proof.
  apply (oversized_packet_rejected [128; 1; 2; 3; 4; 5; 6; 7; 8; 9] 9
           (demo_world (PyInt 0, PyInt 0, PyInt 0))).
  simpl. lia.
Defined.

Lemma map_wire_wrap (l : list Z) :
  List.map wire_byte (List.map wrap_int8 l) = List.map wire_byte l.
Proof.
  rewrite map_map. apply map_ext. intros z. apply wire_byte_wrap.
Qed.

Lemma map_wrap_small (l : list Z) :
  Forall fits_int8 l -> List.map wrap_int8 l = l.
Proof.
  induction 1 as [|z l Hz Hl IH]; simpl; [reflexivity|].
  rewrite (wrap_int8_small z Hz), IH. reflexivity.
Qed.

Lemma map_repeat_zero (n : nat) :
  List.map wire_byte (repeat 0 n) = repeat 0 n.
Proof. induction n as [|n IH]; simpl; [reflexivity|]. rewrite IH. reflexivity. Qed.

Lemma right_pad_array_short (packet : list Z) :
  (List.length packet < 9)%nat -> Forall fits_long packet ->
  right_pad_array packet 9
  = Ok (List.map wrap_int8 packet ++ repeat 0 (9 - List.length packet)).
Proof.
  intros Hlt Hfit. unfold right_pad_array.
  destruct (Nat.ltb_spec (List.length packet) 9) as [_|Hge]; [|lia].
  rewrite (rmap_store_int8 packet Hfit). cbn [rbind].
  destruct (Nat.leb_spec (List.length packet) 9) as [_|Hgt]; [|lia].
  reflexivity.
Qed.

Lemma right_pad_array_full (packet : list Z) :
  List.length packet = 9%nat -> right_pad_array packet 9 = Ok packet.
Proof.
  intros Heq. unfold right_pad_array. rewrite Heq. reflexivity.
Qed.

(** C5: a packet of at most nine entries yields a frame of exactly nine:
    on the wire the supplied bytes keep their positions and the rest is
    zero; supplied signed bytes are kept as they are; nine supplied entries
    are returned unchanged.  Every frame that any sequence of calls hands to
    [spi.xfer] has nine entries. *)
Theorem frame_is_nine_bytes :
  (forall packet : list Z,
     (List.length packet <= 9)%nat -> Forall fits_long packet ->
     exists f,
       right_pad_array packet 9 = Ok f
       /\ List.length f = 9%nat
       /\ List.map wire_byte f
          = List.map wire_byte packet ++ repeat 0 (9 - List.length packet)
       /\ (Forall fits_int8 packet ->
           f = packet ++ repeat 0 (9 - List.length packet))
       /\ (List.length packet = 9%nat -> f = packet))
  /\ (forall unicode_upper w,
        reachable unicode_upper w ->
        Forall (fun f => List.length f = 9%nat) (frames (trace w))).
Proof.
  split.
  - intros packet Hle Hfit.
    destruct (Nat.eq_dec (List.length packet) 9) as [Heq|Hne].
    + exists packet. rewrite (right_pad_array_full packet Heq).
      rewrite Heq. cbn [Nat.sub repeat]. rewrite !app_nil_r. auto.
    + assert (Hlt : (List.length packet < 9)%nat) by lia.
      eexists. split; [apply (right_pad_array_short packet Hlt Hfit)|].
      split; [|split; [|split]].
      * rewrite length_app, length_map, repeat_length. lia.
      * rewrite map_app, map_wire_wrap, map_repeat_zero. reflexivity.
      * intros H8. rewrite (map_wrap_small packet H8). reflexivity.
      * intros Heq. lia.
  - intros unicode_upper w Hr.
    apply (reachable_consistent unicode_upper w Hr).
Qed.

Lemma frame_is_nine_bytes_witness :
  (exists f,
     right_pad_array [4; 12; -5] 9 = Ok f
     /\ List.length f = 9%nat
     /\ List.map wire_byte f = [4; 12; 251] ++ repeat 0 6
     /\ (Forall fits_int8 [4; 12; -5] -> f = [4; 12; -5] ++ repeat 0 6)
     /\ (3%nat = 9%nat -> f = [4; 12; -5]))
  /\ Forall (fun f => List.length f = 9%nat)
       (frames (trace (snd (hover (demo_world (PyInt 0, PyInt 0, PyInt 0)))))).
Proof.
  split.
  - apply (proj1 frame_is_nine_bytes [4; 12; -5]).
    + simpl. lia.
    + repeat constructor; unfold fits_long; lia.
  - apply (proj2 frame_is_nine_bytes ascii_only_upper).
    apply (reach_call ascii_only_upper CallHover).
    apply (reach_init ascii_only_upper demo_platform 0 0 10000
             (PyInt 0, PyInt 0, PyInt 0)).
    reflexivity.
Defined.

(** ** Input state *)

(** C10: a freshly constructed [Hat] answers [poll_buttons] with
    [(False, False, 0, 0)], and construction hands nothing to the bus. *)
Theorem fresh_hat_poll_buttons pf spi_bus spi_device spi_max_speed_hz so w :
  __init__ pf spi_bus spi_device spi_max_speed_hz so = Ok w ->
  poll_buttons (hat w) = (false, false, PyInt 0, PyInt 0)
  /\ frames (trace w) = [].
Proof.
  intros Hinit.
  destruct (init_run _ _ _ _ _ _ Hinit) as (Hh & Ht & _).
  rewrite Hh, Ht. split; reflexivity.
Qed.

Lemma fresh_hat_poll_buttons_witness :
  poll_buttons (hat (demo_world (PyInt 0, PyInt 0, PyInt 0)))
  = (false, false, PyInt 0, PyInt 0)
  /\ frames (trace (demo_world (PyInt 0, PyInt 0, PyInt 0))) = [].
Proof.
  apply (fresh_hat_poll_buttons demo_platform 0 0 10000
           (PyInt 0, PyInt 0, PyInt 0)).
  reflexivity.
Defined.

Lemma trancieve_exchange (packet f : list Z) (w : World)
    (reply : list byte) (rest : list (option (list byte))) :
  right_pad_array packet 9 = Ok f ->
  spi_is_open w = true ->
  incoming w = Some reply :: rest ->
  trancieve packet w
  = _save_buttons reply
      (mkWorld (hat w) (trace w ++ [Sleep 1000; Xfer f]) true rest).
Proof.
  intros Hf Ho Hi. pose proof (trancieve_run packet w) as Hrun.
  rewrite Hf, Ho, Hi in Hrun. exact Hrun.
Qed.

(** C9: the two button flags are never both set.  A new [Hat] has both
    clear; an exchange that brings a reply sets the menu flag exactly when
    reply byte 0 is [Button.MENU] and the joystick flag exactly when it is
    [Button.JOYSTICK]; so no world reached by construction and calls has
    both. *)
Theorem button_flags_exclusive :
  (forall pf spi_bus spi_device spi_max_speed_hz so w,
     __init__ pf spi_bus spi_device spi_max_speed_hz so = Ok w ->
     menu_btn (hat w) = false /\ joy_btn (hat w) = false)
  /\ (forall packet f w reply rest b0,
        right_pad_array packet 9 = Ok f ->
        spi_is_open w = true ->
        incoming w = Some reply :: rest ->
        nth_error reply 0 = Some b0 ->
        let w' := snd (trancieve packet w) in
        (menu_btn (hat w') = true <-> byte_val b0 = Button.MENU)
        /\ (joy_btn (hat w') = true <-> byte_val b0 = Button.JOYSTICK))
  /\ (forall unicode_upper w,
        reachable unicode_upper w ->
        ~ (menu_btn (hat w) = true /\ joy_btn (hat w) = true)).
Proof.
  split; [|split].
  - intros pf bus dev hz so w Hinit.
    destruct (init_run _ _ _ _ _ _ Hinit) as (Hh & _).
    rewrite Hh. split; reflexivity.
  - intros packet f w reply rest b0 Hf Ho Hi Hb0 w'. subst w'.
    rewrite (trancieve_exchange packet f w reply rest Hf Ho Hi).
    destruct reply as [|b r1]; [discriminate|].
    cbn in Hb0. apply (f_equal (fun o => match o with Some x => x | None => b end)) in Hb0.
    subst b.
    destruct (save_buttons_run (b0 :: r1)
                (mkWorld (hat w) (trace w ++ [Sleep 1000; Xfer f]) true rest))
      as (res & h' & -> & _ & Hm & Hj & _).
    cbn [snd hat]. rewrite Hm, Hj. split; apply Z.eqb_eq.
  - intros unicode_upper w Hr [Hm Hj].
    destruct (reachable_consistent unicode_upper w Hr) as [_ Hb].
    unfold both_pressed in Hb. rewrite Hm, Hj in Hb. discriminate.
Qed.

Lemma button_flags_exclusive_witness :
  (menu_btn (hat (demo_world (PyInt 0, PyInt 0, PyInt 0))) = false
   /\ joy_btn (hat (demo_world (PyInt 0, PyInt 0, PyInt 0))) = false)
  /\ (let w' :=
        snd (trancieve [SendCommand.NOOP]
               (mkWorld (mkHat (PyInt 0, PyInt 0, PyInt 0) false true
                           (PyInt 0) (PyInt 0))
                  [] true [Some menu_reply])) in
      (menu_btn (hat w') = true <-> byte_val x01 = Button.MENU)
      /\ (joy_btn (hat w') = true <-> byte_val x01 = Button.JOYSTICK))
  /\ ~ (menu_btn (hat (snd (enable_servos
                               (demo_world (PyInt 0, PyInt 0, PyInt 0))))) = true
        /\ joy_btn (hat (snd (enable_servos
                                (demo_world (PyInt 0, PyInt 0, PyInt 0))))) = true).
Proof.
  split; [|split].
  - apply (proj1 button_flags_exclusive demo_platform 0 0 10000
             (PyInt 0, PyInt 0, PyInt 0)).
    reflexivity.
  - apply (proj1 (proj2 button_flags_exclusive) [SendCommand.NOOP]
             [0; 0; 0; 0; 0; 0; 0; 0; 0] _ menu_reply []);
      reflexivity.
  - apply (proj2 (proj2 button_flags_exclusive) ascii_only_upper).
    apply (reach_call ascii_only_upper CallEnableServos).
    apply (reach_init ascii_only_upper demo_platform 0 0 10000
             (PyInt 0, PyInt 0, PyInt 0)).
    reflexivity.
Defined.

Lemma uint8_to_int8_spec (b : Z) :
  _uint8_to_int8 b = if b <? 128 then b else b - 256.
Proof. unfold _uint8_to_int8. destruct (b <? 128); lia. Qed.

(** C8: after an exchange that brings a nine-byte reply, the stored
    joystick X is Python's quotient [(b if b < 128 else b - 256) / 100] for
    the byte [b] at reply position 1, and the stored Y likewise for position
    2; on bytes that quotient is the binary64 division of the two values.
    Raw byte 200 at the X position gives [-0.56]. *)
Theorem joystick_normalization (packet f : list Z) (w : World)
    (reply : list byte) (rest : list (option (list byte))) (bx by_ : byte) :
  right_pad_array packet 9 = Ok f ->
  spi_is_open w = true ->
  incoming w = Some reply :: rest ->
  List.length reply = 9%nat ->
  nth_error reply JoystickByteIndex.X = Some bx ->
  nth_error reply JoystickByteIndex.Y = Some by_ ->
  let signed b := if b <? 128 then b else b - 256 in
  let w' := snd (trancieve packet w) in
  fst (trancieve packet w) = Ok tt
  /\ (exists jx jy,
        int_truediv (signed (byte_val bx)) 100 = Ok jx
        /\ int_truediv (signed (byte_val by_)) 100 = Ok jy
        /\ joy_x (hat w') = PyFloat jx
        /\ joy_y (hat w') = PyFloat jy
        /\ jx = (Z2float (signed (byte_val bx)) / 100)%float
        /\ jy = (Z2float (signed (byte_val by_)) / 100)%float)
  /\ (byte_val bx = 200 -> joy_x (hat w') = PyFloat (-0.56)).
Proof.
  intros Hf Ho Hi Hlen Hx Hy signed w'. subst w'.
  rewrite (trancieve_exchange packet f w reply rest Hf Ho Hi).
  destruct reply as [|b0 [|b1 [|b2 r3]]]; try discriminate.
  cbn in Hx, Hy.
  assert (b1 = bx) by congruence. assert (b2 = by_) by congruence.
  subst b1 b2.
  destruct (save_buttons_run (b0 :: bx :: by_ :: r3)
              (mkWorld (hat w) (trace w ++ [Sleep 1000; Xfer f]) true rest))
    as (res & h' & -> & _ & _ & _ & -> & Hjx & Hjy).
  cbn [fst snd hat]. subst signed. cbv beta.
  rewrite <- !uint8_to_int8_spec.
  split; [reflexivity|]. split.
  - exists (Z2float (_uint8_to_int8 (byte_val bx)) / 100)%float,
           (Z2float (_uint8_to_int8 (byte_val by_)) / 100)%float.
    rewrite !truediv_byte. auto 10.
  - intros H200. rewrite Hjx, H200. vm_compute. reflexivity.
Qed.

Lemma joystick_normalization_witness :
  fst (trancieve [SendCommand.NOOP]
         (mkWorld (mkHat (PyInt 0, PyInt 0, PyInt 0) false false
                     (PyInt 0) (PyInt 0))
            [] true [Some menu_reply])) = Ok tt
  /\ joy_x (hat (snd (trancieve [SendCommand.NOOP]
                        (mkWorld (mkHat (PyInt 0, PyInt 0, PyInt 0) false false
                                    (PyInt 0) (PyInt 0))
                           [] true [Some menu_reply]))))
     = PyFloat (-0.56).
Proof.
  destruct (joystick_normalization [SendCommand.NOOP]
              [0; 0; 0; 0; 0; 0; 0; 0; 0]
              (mkWorld (mkHat (PyInt 0, PyInt 0, PyInt 0) false false
                          (PyInt 0) (PyInt 0))
                 [] true [Some menu_reply])
              menu_reply [] xc8 x00
              eq_refl eq_refl eq_refl eq_refl eq_refl eq_refl)
    as (Hok & _ & H200).
  split; [exact Hok|]. apply H200. reflexivity.
Defined.

(** ** Actuator commands *)

Lemma trancieve_trace (packet f : list Z) (w : World) :
  right_pad_array packet 9 = Ok f ->
  trace (snd (trancieve packet w)) = trace w ++ [Sleep 1000; Xfer f].
Proof.
  intros Hf. pose proof (trancieve_run packet w) as Hrun.
  rewrite Hf in Hrun. cbv zeta in Hrun.
  destruct (spi_is_open w); [|rewrite Hrun; reflexivity].
  destruct (incoming w) as [|[reply|] rest]; rewrite Hrun; try reflexivity.
  destruct (save_buttons_run reply
              (mkWorld (hat w) (trace w ++ [Sleep 1000; Xfer f]) true rest))
    as (res & h' & -> & _).
  reflexivity.
Qed.

Lemma trancieve_returns (packet f : list Z) (w : World)
    (reply : list byte) (rest : list (option (list byte))) :
  right_pad_array packet 9 = Ok f ->
  spi_is_open w = true ->
  incoming w = Some reply :: rest ->
  List.length reply = 9%nat ->
  fst (trancieve packet w) = Ok tt.
Proof.
  intros Hf Ho Hi Hlen.
  rewrite (trancieve_exchange packet f w reply rest Hf Ho Hi).
  destruct reply as [|b0 [|b1 [|b2 r3]]]; try discriminate.
  destruct (save_buttons_run (b0 :: b1 :: b2 :: r3)
              (mkWorld (hat w) (trace w ++ [Sleep 1000; Xfer f]) true rest))
    as (res & h' & -> & _ & _ & _ & -> & _).
  reflexivity.
Qed.

(** A command sent as an [int8] array and followed by the settle delay:
    the body shared by [set_angles] and [set_servos]. *)
Lemma send_and_settle (arr f : list Z) (w : World) :
  right_pad_array arr 9 = Ok f ->
  let r := (trancieve arr ;;; sleep 50000)%hat w in
  frames (trace (snd r)) = frames (trace w) ++ [f]
  /\ ((fst r = Ok tt
       /\ trace (snd r) = trace w ++ [Sleep 1000; Xfer f; Sleep 50000])
      \/ (exists e, fst r = Raise e
          /\ trace (snd r) = trace w ++ [Sleep 1000; Xfer f]))
  /\ (fst (trancieve arr w) = Ok tt -> fst r = Ok tt).
Proof.
  intros Hf r. subst r. unfold bind.
  pose proof (trancieve_trace arr f w Hf) as Ht.
  destruct (trancieve arr w) as [[[]|e] w']; cbn [fst snd] in *.
  - unfold sleep, emit. cbn [fst snd trace]. rewrite Ht, <- app_assoc.
    cbn [app]. split; [|split; [left; split|]]; try reflexivity.
    rewrite frames_app. reflexivity.
  - rewrite Ht. split; [|split; [right; exists e; split|]]; try reflexivity.
    + rewrite frames_app. reflexivity.
    + discriminate.
Qed.

Lemma set_angles_unfold (x y : pynum) (w : World) :
  set_angles x y w =
  match _xy_offsets x y (servo_offsets (hat w)) with
  | Raise e => (Raise e, w)
  | Ok (plate_x, plate_y) =>
      match np_array_int8
              [PyInt SendCommand.SET_PLATE_ANGLES; plate_x; plate_y] with
      | Raise e => (Raise e, w)
      | Ok arr => (trancieve arr ;;; sleep 50000)%hat w
      end
  end.
Proof.
  unfold set_angles. cbv [bind get_hat lift].
  destruct (_xy_offsets x y (servo_offsets (hat w))) as [[px py]|e];
    [|reflexivity].
  destruct (np_array_int8 _) as [arr|e]; reflexivity.
Qed.

Lemma set_servos_unfold (s1 s2 s3 : pynum) (w : World) :
  set_servos s1 s2 s3 w =
  match np_array_int8 [PyInt SendCommand.SET_SERVOS; s1; s2; s3] with
  | Raise e => (Raise e, w)
  | Ok arr => (trancieve arr ;;; sleep 50000)%hat w
  end.
Proof.
  unfold set_servos. cbv [bind lift].
  destruct (np_array_int8 _) as [arr|e]; reflexivity.
Qed.

Lemma xy_offsets_scenario :
  _xy_offsets (PyInt 10) (PyInt (-5)) (PyInt 2, PyInt 0, PyInt 0)
  = Ok (PyFloat 12, PyFloat (-5)).
Proof. vm_compute. reflexivity. Qed.

(** [set_angles] once the offset arithmetic and the conversions have gone
    through. *)
Lemma set_angles_sends (x y : pynum) (w : World) (plate_x plate_y : pynum)
    (arr f : list Z) :
  _xy_offsets x y (servo_offsets (hat w)) = Ok (plate_x, plate_y) ->
  np_array_int8 [PyInt SendCommand.SET_PLATE_ANGLES; plate_x; plate_y]
  = Ok arr ->
  right_pad_array arr 9 = Ok f ->
  let r := set_angles x y w in
  frames (trace (snd r)) = frames (trace w) ++ [f]
  /\ ((fst r = Ok tt
       /\ trace (snd r) = trace w ++ [Sleep 1000; Xfer f; Sleep 50000])
      \/ (exists e, fst r = Raise e
          /\ trace (snd r) = trace w ++ [Sleep 1000; Xfer f]))
  /\ (forall reply rest,
        spi_is_open w = true -> incoming w = Some reply :: rest ->
        List.length reply = 9%nat -> fst r = Ok tt).
Proof.
  intros Hxy Ha Hf r. subst r.
  rewrite set_angles_unfold, Hxy, Ha.
  destruct (send_and_settle arr f w Hf) as (H1 & H2 & H3).
  split; [exact H1|]. split; [exact H2|].
  intros reply rest Ho Hi Hlen. apply H3.
  apply (trancieve_returns arr f w reply rest Hf Ho Hi Hlen).
Qed.

(** C2: [set_angles(10, -5)] on a [Hat] with offsets [(2, 0, 0)] hands
    exactly one frame, [[SET_PLATE_ANGLES, 12, -5, 0, 0, 0, 0, 0, 0]], to the
    bus; when it returns, the 50 ms settle delay is the last thing it did,
    after the transfer; it returns whenever the bus answers with nine
    bytes. *)
Theorem set_angles_scenario (w : World) :
  servo_offsets (hat w) = (PyInt 2, PyInt 0, PyInt 0) ->
  let frame := [SendCommand.SET_PLATE_ANGLES; 12; -5; 0; 0; 0; 0; 0; 0] in
  let r := set_angles (PyInt 10) (PyInt (-5)) w in
  frames (trace (snd r)) = frames (trace w) ++ [frame]
  /\ ((fst r = Ok tt
       /\ trace (snd r) = trace w ++ [Sleep 1000; Xfer frame; Sleep 50000])
      \/ (exists e, fst r = Raise e
          /\ trace (snd r) = trace w ++ [Sleep 1000; Xfer frame]))
  /\ (forall reply rest,
        spi_is_open w = true -> incoming w = Some reply :: rest ->
        List.length reply = 9%nat -> fst r = Ok tt).
Proof.
  intros Hso frame r. subst r.
  destruct (set_angles_sends (PyInt 10) (PyInt (-5)) w (PyFloat 12)
              (PyFloat (-5)) [4; 12; -5] frame)
    as (H1 & H2 & H3).
  - rewrite Hso. apply xy_offsets_scenario.
  - vm_compute. reflexivity.
  - reflexivity.
  - split; [exact H1|]. split; [exact H2|]. exact H3.
Qed.

Lemma set_angles_scenario_witness :
  set_angles (PyInt 10) (PyInt (-5)) (demo_world (PyInt 2, PyInt 0, PyInt 0))
  = (Ok tt,
     mkWorld (mkHat (PyInt 2, PyInt 0, PyInt 0) false false
                (PyFloat 0) (PyFloat 0))
       (trace (demo_world (PyInt 2, PyInt 0, PyInt 0))
        ++ [Sleep 1000; Xfer [4; 12; -5; 0; 0; 0; 0; 0; 0]; Sleep 50000])
       true [Some idle_reply; Some idle_reply])
  /\ frames (trace (snd (set_angles (PyInt 10) (PyInt (-5))
                           (demo_world (PyInt 2, PyInt 0, PyInt 0)))))
     = [[4; 12; -5; 0; 0; 0; 0; 0; 0]].
Proof.
  split; [vm_compute; reflexivity|].
  apply (proj1 (set_angles_scenario (demo_world (PyInt 2, PyInt 0, PyInt 0))
                  eq_refl)).
Defined.

Lemma save_buttons_offsets so (r : list byte) (w : World) :
  _save_buttons r (with_offsets so w)
  = (fst (_save_buttons r w), with_offsets so (snd (_save_buttons r w))).
Proof.
  unfold _save_buttons. destruct w as [h tr o inc].
  destruct r as [|b0 [|bx [|by_ rest]]]; run_monad;
    rewrite ?truediv_byte; run_monad; reflexivity.
Qed.

Lemma trancieve_offsets so (packet : list Z) (w : World) :
  trancieve packet (with_offsets so w)
  = (fst (trancieve packet w), with_offsets so (snd (trancieve packet w))).
Proof.
  pose proof (trancieve_run packet w) as H1.
  pose proof (trancieve_run packet (with_offsets so w)) as H2.
  destruct (right_pad_array packet 9) as [f|e].
  - cbv zeta in H1, H2. cbn [with_offsets spi_is_open incoming trace hat] in H2.
    destruct (spi_is_open w); [|rewrite H1, H2; reflexivity].
    destruct (incoming w) as [|[reply|] rest]; rewrite H1, H2;
      try reflexivity.
    apply (save_buttons_offsets so reply
             (mkWorld (hat w) (trace w ++ [Sleep 1000; Xfer f]) true rest)).
  - rewrite H1, H2. reflexivity.
Qed.

Lemma set_servos_offsets so (s1 s2 s3 : pynum) (w : World) :
  set_servos s1 s2 s3 (with_offsets so w)
  = (fst (set_servos s1 s2 s3 w),
     with_offsets so (snd (set_servos s1 s2 s3 w))).
Proof.
  rewrite !set_servos_unfold.
  destruct (np_array_int8 _) as [arr|e]; [|reflexivity].
  unfold bind. rewrite trancieve_offsets.
  destruct (trancieve arr w) as [[[]|e] w']; reflexivity.
Qed.

Lemma wrap_int8_range (z : Z) : fits_int8 (wrap_int8 z).
Proof.
  unfold fits_int8, wrap_int8.
  pose proof (Z.mod_pos_bound (z + 128) 256). lia.
Qed.

(** The frame of [set_servos] for ints that fit a C [long]. *)
Lemma set_servos_frame (z1 z2 z3 : Z) (w : World) :
  fits_long z1 -> fits_long z2 -> fits_long z3 ->
  frames (trace (snd (set_servos (PyInt z1) (PyInt z2) (PyInt z3) w)))
  = frames (trace w)
    ++ [[SendCommand.SET_SERVOS; wrap_int8 z1; wrap_int8 z2; wrap_int8 z3;
         0; 0; 0; 0; 0]].
Proof.
  intros H1 H2 H3.
  rewrite set_servos_unfold. unfold np_array_int8. cbn [rmap np_int8].
  rewrite (store_int8_ok z1 H1), (store_int8_ok z2 H2), (store_int8_ok z3 H3).
  change (store_int8 SendCommand.SET_SERVOS) with (@Ok Z 5).
  cbn [rbind].
  apply send_and_settle.
  rewrite right_pad_array_short.
  - cbn [List.map List.length Nat.sub repeat app].
    rewrite !(wrap_int8_small (wrap_int8 _)) by apply wrap_int8_range.
    reflexivity.
  - cbn. lia.
  - repeat constructor;
      try (apply fits_int8_long, wrap_int8_range).
    unfold fits_long. cbn. lia.
Qed.

(** C7: the servo offsets have no influence on [set_servos].  Two runs that
    differ only in the offsets end alike: same outcome, same events and so
    the same frame, same decoded input; the offsets themselves are left as
    they were.  The one frame puts [SET_SERVOS, s1, s2, s3, 0, 0, 0, 0, 0] on
    the wire (each argument as a byte), and is that very list when the
    arguments fit a signed byte.  On the [set_angles] path the offsets do
    show in the frame. *)
Theorem set_servos_ignores_offsets :
  (forall so so' s1 s2 s3 w,
     let r := set_servos s1 s2 s3 (with_offsets so w) in
     let r' := set_servos s1 s2 s3 (with_offsets so' w) in
     fst r = fst r'
     /\ trace (snd r) = trace (snd r')
     /\ poll_buttons (hat (snd r)) = poll_buttons (hat (snd r'))
     /\ incoming (snd r) = incoming (snd r')
     /\ servo_offsets (hat (snd r)) = so
     /\ servo_offsets (hat (snd r')) = so')
  /\ (forall z1 z2 z3 w,
        fits_long z1 -> fits_long z2 -> fits_long z3 ->
        exists f,
          frames (trace (snd (set_servos (PyInt z1) (PyInt z2) (PyInt z3) w)))
          = frames (trace w) ++ [f]
          /\ List.map wire_byte f
             = [SendCommand.SET_SERVOS; wire_byte z1; wire_byte z2;
                wire_byte z3; 0; 0; 0; 0; 0]
          /\ (fits_int8 z1 -> fits_int8 z2 -> fits_int8 z3 ->
              f = [SendCommand.SET_SERVOS; z1; z2; z3; 0; 0; 0; 0; 0]))
  /\ (forall w,
        frames (trace (snd (set_angles (PyInt 10) (PyInt (-5))
                 (with_offsets (PyInt 2, PyInt 0, PyInt 0) w))))
        = frames (trace w)
          ++ [[SendCommand.SET_PLATE_ANGLES; 12; -5; 0; 0; 0; 0; 0; 0]]
        /\ frames (trace (snd (set_angles (PyInt 10) (PyInt (-5))
                    (with_offsets (PyInt 0, PyInt 0, PyInt 0) w))))
           = frames (trace w)
             ++ [[SendCommand.SET_PLATE_ANGLES; 10; -5; 0; 0; 0; 0; 0; 0]]).
Proof.
  split; [|split].
  - intros so so' s1 s2 s3 w r r'. subst r r'.
    rewrite (set_servos_offsets so), (set_servos_offsets so').
    cbn [fst snd]. repeat split; reflexivity.
  - intros z1 z2 z3 w H1 H2 H3.
    eexists. split; [apply (set_servos_frame z1 z2 z3 w H1 H2 H3)|]. split.
    + cbn [List.map]. rewrite !wire_byte_wrap. reflexivity.
    + intros S1 S2 S3.
      rewrite (wrap_int8_small z1 S1), (wrap_int8_small z2 S2),
              (wrap_int8_small z3 S3).
      reflexivity.
  - intros w. split.
    + apply (set_angles_sends (PyInt 10) (PyInt (-5))
               (with_offsets (PyInt 2, PyInt 0, PyInt 0) w)
               (PyFloat 12) (PyFloat (-5)) [4; 12; -5]);
        [apply xy_offsets_scenario|vm_compute; reflexivity|reflexivity].
    + apply (set_angles_sends (PyInt 10) (PyInt (-5))
               (with_offsets (PyInt 0, PyInt 0, PyInt 0) w)
               (PyFloat 10) (PyFloat (-5)) [4; 10; -5]);
        [vm_compute; reflexivity|vm_compute; reflexivity|reflexivity].
Qed.

Lemma set_servos_ignores_offsets_witness :
  set_servos (PyInt 150) (PyInt 150) (PyInt 150)
    (with_offsets (PyInt 2, PyInt 0, PyInt 0)
       (demo_world (PyInt 0, PyInt 0, PyInt 0)))
  = (Ok tt,
     with_offsets (PyInt 2, PyInt 0, PyInt 0)
       (snd (hover (demo_world (PyInt 0, PyInt 0, PyInt 0)))))
  /\ (exists f,
        frames (trace (snd (hover (demo_world (PyInt 0, PyInt 0, PyInt 0)))))
        = [] ++ [f]
        /\ List.map wire_byte f = [5; 150; 150; 150; 0; 0; 0; 0; 0]).
Proof.
  split; [vm_compute; reflexivity|].
  destruct (proj1 (proj2 set_servos_ignores_offsets) 150 150 150
              (demo_world (PyInt 0, PyInt 0, PyInt 0)))
    as (f & Hf & Hw & _); try (unfold fits_long; lia).
  exists f. split; [exact Hf|exact Hw].
Defined.

(** ** Offset geometry *)

(** *** Integers as binary64 numbers *)

Lemma digits2_pos_size (p : positive) : digits2_pos p = Pos.size p.
Proof. induction p; simpl; congruence. Qed.

Lemma digits2_pos_iter (p k : positive) :
  digits2_pos (Pos.iter xO p k) = (digits2_pos p + k)%positive.
Proof.
  induction k using Pos.peano_ind.
  - simpl. lia.
  - rewrite Pos.iter_succ. simpl. rewrite IHk. lia.
Qed.

Lemma Zpos_iter (p k : positive) :
  Z.pos (Pos.iter xO p k) = Z.pos p * 2 ^ Z.pos k.
Proof.
  induction k using Pos.peano_ind.
  - simpl. lia.
  - rewrite Pos.iter_succ, Pos2Z.inj_xO, IHk, Pos2Z.inj_succ, Z.pow_succ_r
      by lia.
    lia.
Qed.

Lemma digits2_pos_bound (p : positive) :
  Z.pos p < 2 ^ 53 -> Z.pos (digits2_pos p) <= 53.
Proof.
  intros H. rewrite digits2_pos_size.
  destruct (Z.le_gt_cases (Z.pos (Pos.size p)) 53) as [|Hgt]; [assumption|].
  exfalso.
  pose proof (Pos.size_le p) as Hle.
  assert (2 ^ 54 <= 2 ^ Z.pos (Pos.size p))
    by (apply Z.pow_le_mono_r; lia).
  assert (Z.pos (2 ^ Pos.size p) = 2 ^ Z.pos (Pos.size p))
    by (rewrite Pos2Z.inj_pow; reflexivity).
  assert (Z.pos (2 ^ Pos.size p) <= Z.pos p~0)
    by (apply Pos2Z.pos_le_pos; exact Hle).
  rewrite Pos2Z.inj_xO in *.
  change (2 ^ 54) with (2 * 2 ^ 53) in *. lia.
Qed.

(** A mantissa of 53 digits with an exponent in range is left as it is. *)
Lemma binary_round_aux_canonical (sx : bool) (mz : positive) (ez : Z) :
  Z.pos (digits2_pos mz) = 53 -> -1074 <= ez <= 971 ->
  binary_round_aux prec emax sx (Z.pos mz) ez loc_Exact = S754_finite sx mz ez.
Proof.
  intros Hd He.
  unfold binary_round_aux, shr_fexp, Zdigits2.
  rewrite Hd.
  assert (Hf : fexp prec emax (53 + ez) - ez = 0).
  { unfold fexp, SpecFloat.emin, prec, emax. lia. }
  rewrite Hf.
  cbn [shr shr_record_of_loc shr_m loc_of_shr_record round_nearest_even].
  unfold Zdigits2. rewrite Hd, Hf. cbn [shr shr_m].
  destruct (Z.leb_spec ez (emax - prec)) as [_|Hgt]; [reflexivity|].
  unfold emax, prec in Hgt. lia.
Qed.

(** Rounding a positive integer below 2^53 only shifts it. *)
Lemma binary_round_small (sx : bool) (p : positive) :
  Z.pos p < 2 ^ 53 ->
  exists mz ez,
    binary_round prec emax sx p 0 = S754_finite sx mz ez
    /\ -52 <= ez <= 0
    /\ Z.pos mz = Z.pos p * 2 ^ (- ez)
    /\ Z.pos (digits2_pos mz) = 53.
Proof.
  intros Hp. pose proof (digits2_pos_bound p Hp) as Hd.
  unfold binary_round, shl_align.
  assert (Hf : fexp prec emax (Z.pos (digits2_pos p) + 0)
               = Z.pos (digits2_pos p) - 53).
  { unfold fexp, SpecFloat.emin, prec, emax. lia. }
  rewrite Hf.
  destruct (Z.pos (digits2_pos p) - 53 - 0) as [|k|k] eqn:Hk; try lia.
  - exists p, 0. rewrite binary_round_aux_canonical by lia.
    repeat split; try lia.
  - exists (Pos.iter xO p k), (Z.pos (digits2_pos p) - 53).
    assert (Hdk : Z.pos (digits2_pos (Pos.iter xO p k)) = 53).
    { rewrite digits2_pos_iter, Pos2Z.inj_add. lia. }
    rewrite binary_round_aux_canonical by lia.
    repeat split; try lia.
    rewrite Zpos_iter. f_equal. f_equal. lia.
Qed.

Lemma finite_valid (s : bool) (mz : positive) (ez : Z) :
  Z.pos (digits2_pos mz) = 53 -> -1074 <= ez <= 971 ->
  valid_binary (S754_finite s mz ez) = true.
Proof.
  intros Hd He. unfold valid_binary, bounded, canonical_mantissa.
  rewrite Hd.
  assert (Hf : fexp prec emax (53 + ez) = ez).
  { unfold fexp, SpecFloat.emin, prec, emax. lia. }
  rewrite Hf, Z.eqb_refl. cbn [andb].
  apply Z.leb_le. unfold emax, prec. lia.
Qed.

(** [float(x) == x] for an int below 2^53 in magnitude. *)
Lemma int_to_float_exact (x : Z) :
  Z.abs x < 2 ^ 53 ->
  exists f, int_to_float x = Ok f /\ py_eq (PyFloat f) (PyInt x) = true.
Proof.
  intros Hx. unfold int_to_float, Z2SF, binary_normalize, py_eq, float_exact.
  destruct x as [|p|p].
  - exists 0%float. split; reflexivity.
  - destruct (binary_round_small false p) as (mz & ez & -> & He & Hm & Hd);
      [lia|].
    eexists. split; [reflexivity|].
    rewrite Prim2SF_SF2Prim by (apply finite_valid; lia).
    destruct (Z.leb_spec 0 ez) as [H0|H0].
    + assert (ez = 0) by lia. subst ez. apply Z.eqb_eq.
      change (- 0) with 0 in Hm. change (2 ^ 0) with 1 in *. lia.
    + rewrite Hm. apply Z.eqb_refl.
  - destruct (binary_round_small true p) as (mz & ez & -> & He & Hm & Hd);
      [lia|].
    eexists. split; [reflexivity|].
    rewrite Prim2SF_SF2Prim by (apply finite_valid; lia).
    destruct (Z.leb_spec 0 ez) as [H0|H0].
    + assert (ez = 0) by lia. subst ez. apply Z.eqb_eq.
      change (- 0) with 0 in Hm. change (2 ^ 0) with 1 in *. lia.
    + apply Z.eqb_eq. rewrite <- Pos2Z.opp_pos, Hm. lia.
Qed.

(** Adding a zero of either sign leaves the value. *)
Lemma add_zero_exact (f z : float) (s : bool) (x : Z) :
  Prim2SF z = S754_zero s ->
  py_eq (PyFloat f) (PyInt x) = true ->
  py_eq (PyFloat (f + z)) (PyInt x) = true.
Proof.
  intros Hz. unfold py_eq, float_exact.
  rewrite FloatAxioms.add_spec, Hz. unfold SF64add, SFadd.
  destruct (Prim2SF f) as [sa|sa| |sa ma ea]; destruct s; try destruct sa;
    intros H; exact H.
Qed.

Lemma zero_products :
  py_mul (PyFloat X_TILT_SERVO1) (PyInt 0) = Ok (PyFloat (-0))
  /\ py_mul (PyFloat Y_TILT_SERVO2) (PyInt 0) = Ok (PyFloat 0)
  /\ py_mul (PyFloat Y_TILT_SERVO3) (PyInt 0) = Ok (PyFloat (-0)).
Proof. repeat split; vm_compute; reflexivity. Qed.




(** *** Rounding to 53 digits *)


















(** *** The two sums on signed bytes *)

Lemma Z_range_complete (lo : Z) (n : nat) (z : Z) :
  lo <= z < lo + Z.of_nat n -> In z (Z_range lo n).
Proof.
  intros H. unfold Z_range. apply in_map_iff.
  exists (Z.to_nat (z - lo)). split; [lia|]. apply in_seq. lia.
Qed.

















(** ** Display protocol *)

Section DisplayFacts.

Variable unicode_upper : N -> list N.

(** The first chunk is never sent: the message is built by adding a [bytes]
    slice to a list, which raises.  No call of [print_arbitrary_string]
    returns and none hands a frame to the bus. *)
Lemma print_arbitrary_string_raises (s : pystr) (w : World) :
  exists e, print_arbitrary_string unicode_upper s w = (Raise e, w).
Proof.
  unfold print_arbitrary_string. cbv [bind lift ret throw].
  destruct (utf8_encode (str_upper unicode_upper s)) as [bs|e];
    [|exists e; reflexivity].
  destruct (Nat.leb (List.length (bs ++ [0])) 256);
    [|exists AssertionError; reflexivity].
  assert (Hn : Nat.div (List.length (bs ++ [0]) + 7) 8
               = S (Nat.div (List.length bs) 8)).
  { rewrite length_app. cbn [List.length].
    replace (List.length bs + 1 + 7)%nat with (List.length bs + 1 * 8)%nat
      by lia.
    rewrite Nat.div_add by lia. lia. }
  rewrite Hn. cbn [seq for_each]. cbv [bind lift list_add].
  exists TypeError. reflexivity.
Qed.

(** C3: when the upper-cased text with its terminator takes more than 256
    bytes, [print_arbitrary_string] fails on its length assertion and leaves
    the driver and the bus as they were: no chunk frame and no flip frame is
    handed over. *)
Theorem message_too_long (s : pystr) (bs : list Z) (w : World) :
  utf8_encode (str_upper unicode_upper s) = Ok bs ->
  (256 < List.length (bs ++ [0%Z]))%nat ->
  print_arbitrary_string unicode_upper s w = (Raise AssertionError, w)
  /\ frames (trace (snd (print_arbitrary_string unicode_upper s w)))
     = frames (trace w).
Proof.
  intros Hbs Hlen.
  assert (H : print_arbitrary_string unicode_upper s w
              = (Raise AssertionError, w)).
  { unfold print_arbitrary_string. cbv [bind lift ret throw].
    rewrite Hbs.
    destruct (Nat.leb_spec (List.length (bs ++ [0])) 256%nat) as [Hle|_];
      [lia|].
    reflexivity. }
  rewrite H. split; reflexivity.
Qed.

(** C1 (what the code does at ["hi"]): the call raises [TypeError] while
    building the first chunk, and the bus sees neither the chunk frame nor
    the flip frame. *)
Theorem print_hi_sends_nothing (w : World) :
  print_arbitrary_string unicode_upper (str_of_string "hi") w
  = (Raise TypeError, w)
  /\ frames (trace (snd (print_arbitrary_string unicode_upper
                           (str_of_string "hi") w)))
     = frames (trace w).
Proof.
  assert (H : print_arbitrary_string unicode_upper (str_of_string "hi") w
              = (Raise TypeError, w)) by reflexivity.
  rewrite H. split; reflexivity.
Qed.

End DisplayFacts.

Lemma message_too_long_witness :
  print_arbitrary_string ascii_only_upper (repeat 104%N 300)
    (demo_world (PyInt 0, PyInt 0, PyInt 0))
  = (Raise AssertionError, demo_world (PyInt 0, PyInt 0, PyInt 0))
  /\ frames (trace (snd (print_arbitrary_string ascii_only_upper
                           (repeat 104%N 300)
                           (demo_world (PyInt 0, PyInt 0, PyInt 0)))))
     = frames (trace (demo_world (PyInt 0, PyInt 0, PyInt 0))).
Proof.
  apply (message_too_long ascii_only_upper (repeat 104%N 300)
           (repeat 72 300) (demo_world (PyInt 0, PyInt 0, PyInt 0))).
  - vm_compute. reflexivity.
  - vm_compute. lia.
Defined.

(** * Further properties of the driver *)

(** ** Signed bytes *)

(** X1: [_uint8_to_int8] and the narrowing of an int to a byte on the wire
    are inverse to each other: a raw byte 0..255 decodes to a value in
    -128..127 that goes back to the same byte, and a value in -128..127
    comes back from its byte. *)
Theorem uint8_to_int8_inverse (v : Z) :
  (0 <= v <= 255 ->
   fits_int8 (_uint8_to_int8 v) /\ wire_byte (_uint8_to_int8 v) = v)
  /\ (fits_int8 v -> _uint8_to_int8 (wire_byte v) = v).
Proof.
  unfold fits_int8, _uint8_to_int8, wire_byte. split.
  - intros H. destruct (Z.ltb_spec v 128).
    + split; [lia|]. apply Z.mod_small. lia.
    + split; [lia|].
      replace (-256 + v) with (v + (-1) * 256) by lia.
      rewrite Z.mod_add by lia. apply Z.mod_small. lia.
  - intros H. destruct (Z.le_gt_cases 0 v).
    + rewrite Z.mod_small by lia.
      destruct (Z.ltb_spec v 128); lia.
    + replace (v mod 256) with (v + 256).
      * destruct (Z.ltb_spec (v + 256) 128); lia.
      * replace v with (v + 256 + (-1) * 256) at 2 by lia.
        rewrite Z.mod_add by lia. symmetry. apply Z.mod_small. lia.
Qed.

Lemma uint8_to_int8_inverse_witness :
  (fits_int8 (_uint8_to_int8 200) /\ wire_byte (_uint8_to_int8 200) = 200)
  /\ _uint8_to_int8 (wire_byte (-56)) = -56.
Proof.
  split.
  - apply (proj1 (uint8_to_int8_inverse 200)). lia.
  - apply (proj2 (uint8_to_int8_inverse (-56))). unfold fits_int8. lia.
Defined.

(** ** Packet codec, continued *)

(** X2: padding is idempotent: a frame that [right_pad_array] has produced for
    length 9 passes through it again unchanged. *)
Theorem right_pad_array_idempotent (arr f : list Z) :
  right_pad_array arr 9 = Ok f -> right_pad_array f 9 = Ok f.
Proof.
  intros H. apply right_pad_array_full.
  apply (right_pad_array_length arr f H).
Qed.

Lemma right_pad_array_idempotent_witness :
  right_pad_array [5; -106; -106; -106; 0; 0; 0; 0; 0] 9
  = Ok [5; -106; -106; -106; 0; 0; 0; 0; 0].
Proof.
  apply (right_pad_array_idempotent [5; 150; 150; 150]). reflexivity.
Defined.

(** X3: the [length] argument counts only below nine entries.  Fewer than
    nine entries that fit in [length] are padded to exactly [length]; nine
    entries come back unchanged whatever [length] is, so they are neither
    padded to a larger [length] nor refused for a smaller one. *)
Theorem right_pad_array_length_argument (arr : list Z) (length : nat) :
  ((List.length arr < 9)%nat -> (List.length arr <= length)%nat ->
   Forall fits_long arr ->
   right_pad_array arr length
   = Ok (List.map wrap_int8 arr ++ repeat 0 (length - List.length arr)))
  /\ (List.length arr = 9%nat -> right_pad_array arr length = Ok arr).
Proof.
  split.
  - intros Hlt Hle Hfit. unfold right_pad_array.
    destruct (Nat.ltb_spec (List.length arr) 9) as [_|Hge]; [|lia].
    rewrite (rmap_store_int8 arr Hfit). cbn [rbind].
    destruct (Nat.leb_spec (List.length arr) length) as [_|Hgt]; [|lia].
    reflexivity.
  - intros Heq. unfold right_pad_array. rewrite Heq. reflexivity.
Qed.

Lemma right_pad_array_length_argument_witness :
  right_pad_array [1; 2] 12 = Ok [1; 2; 0; 0; 0; 0; 0; 0; 0; 0; 0; 0]
  /\ right_pad_array [1; 2; 3; 4; 5; 6; 7; 8; 9] 12
     = Ok [1; 2; 3; 4; 5; 6; 7; 8; 9]
  /\ right_pad_array [1; 2; 3; 4; 5; 6; 7; 8; 9] 4
     = Ok [1; 2; 3; 4; 5; 6; 7; 8; 9].
Proof.
  split; [|split].
  - apply (proj1 (right_pad_array_length_argument [1; 2] 12)).
    + simpl. lia.
    + simpl. lia.
    + repeat constructor; unfold fits_long; lia.
  - apply (proj2 (right_pad_array_length_argument
                    [1; 2; 3; 4; 5; 6; 7; 8; 9] 12)).
    reflexivity.
  - apply (proj2 (right_pad_array_length_argument
                    [1; 2; 3; 4; 5; 6; 7; 8; 9] 4)).
    reflexivity.
Defined.

(** ** The transceiver, continued *)

(** X4: a transfer that fails is not retried and decodes nothing: when the
    handle is closed or the bus reports an error, [trancieve] raises
    [OSError] after handing the one frame over, and the button and joystick
    attributes keep the values of the last reply. *)
Theorem trancieve_bus_failure (packet f : list Z) (w : World) :
  right_pad_array packet 9 = Ok f ->
  spi_is_open w = false \/ incoming w = []
  \/ (exists rest, incoming w = None :: rest) ->
  fst (trancieve packet w) = Raise OSError
  /\ hat (snd (trancieve packet w)) = hat w
  /\ trace (snd (trancieve packet w)) = trace w ++ [Sleep 1000; Xfer f].
Proof.
  intros Hf Hfail. pose proof (trancieve_run packet w) as Hrun.
  rewrite Hf in Hrun. cbv zeta in Hrun.
  destruct (spi_is_open w).
  - destruct Hfail as [Hc|[He|[rest Hn]]]; [discriminate| |].
    + rewrite He in Hrun. rewrite Hrun. repeat split.
    + rewrite Hn in Hrun. rewrite Hrun. repeat split.
  - rewrite Hrun. repeat split.
Qed.

Lemma trancieve_bus_failure_witness :
  fst (trancieve [SendCommand.SERVO_ENABLE]
         (snd (close (demo_world (PyInt 0, PyInt 0, PyInt 0)))))
  = Raise OSError
  /\ hat (snd (trancieve [SendCommand.SERVO_ENABLE]
                 (snd (close (demo_world (PyInt 0, PyInt 0, PyInt 0))))))
     = hat (demo_world (PyInt 0, PyInt 0, PyInt 0)).
Proof.
  destruct (trancieve_bus_failure [SendCommand.SERVO_ENABLE]
              [1; 0; 0; 0; 0; 0; 0; 0; 0]
              (snd (close (demo_world (PyInt 0, PyInt 0, PyInt 0))))
              eq_refl (or_introl eq_refl))
    as (H1 & H2 & _).
  split; [exact H1|exact H2].
Defined.

(** X5: the input state is overwritten wholesale: after an exchange that
    brings a nine-byte reply, what [poll_buttons] returns depends on that
    reply alone, not on the state before, the packet sent or the rest of
    the world. *)
Theorem poll_buttons_latest_reply_only (p1 p2 f1 f2 : list Z) (w1 w2 : World)
    (reply : list byte) (rest1 rest2 : list (option (list byte))) :
  right_pad_array p1 9 = Ok f1 -> right_pad_array p2 9 = Ok f2 ->
  spi_is_open w1 = true -> spi_is_open w2 = true ->
  incoming w1 = Some reply :: rest1 -> incoming w2 = Some reply :: rest2 ->
  List.length reply = 9%nat ->
  poll_buttons (hat (snd (trancieve p1 w1)))
  = poll_buttons (hat (snd (trancieve p2 w2))).
Proof.
  intros Hf1 Hf2 Ho1 Ho2 Hi1 Hi2 Hlen.
  rewrite (trancieve_exchange p1 f1 w1 reply rest1 Hf1 Ho1 Hi1).
  rewrite (trancieve_exchange p2 f2 w2 reply rest2 Hf2 Ho2 Hi2).
  destruct reply as [|b0 [|bx [|by_ r3]]]; try discriminate.
  destruct (save_buttons_run (b0 :: bx :: by_ :: r3)
              (mkWorld (hat w1) (trace w1 ++ [Sleep 1000; Xfer f1]) true rest1))
    as (res1 & h1 & -> & _ & Hm1 & Hj1 & _ & Hx1 & Hy1).
  destruct (save_buttons_run (b0 :: bx :: by_ :: r3)
              (mkWorld (hat w2) (trace w2 ++ [Sleep 1000; Xfer f2]) true rest2))
    as (res2 & h2 & -> & _ & Hm2 & Hj2 & _ & Hx2 & Hy2).
  unfold poll_buttons. cbn [snd hat].
  rewrite Hm1, Hj1, Hx1, Hy1, Hm2, Hj2, Hx2, Hy2. reflexivity.
Qed.

Lemma poll_buttons_latest_reply_only_witness :
  poll_buttons (hat (snd (trancieve [SendCommand.NOOP]
     (mkWorld (mkHat (PyInt 0, PyInt 0, PyInt 0) false true
                 (PyFloat 1) (PyInt 0))
        [] true [Some menu_reply]))))
  = poll_buttons (hat (snd (trancieve [SendCommand.SERVO_ENABLE]
     (mkWorld (mkHat (PyInt 3, PyInt 0, PyInt 0) false false
                 (PyInt 0) (PyInt 0))
        [Sleep 5] true [Some menu_reply; None])))).
Proof.
  apply (poll_buttons_latest_reply_only [SendCommand.NOOP]
           [SendCommand.SERVO_ENABLE] [0; 0; 0; 0; 0; 0; 0; 0; 0]
           [1; 0; 0; 0; 0; 0; 0; 0; 0] _ _ menu_reply [] [None]);
    reflexivity.
Defined.

Lemma joystick_byte_range (b : byte) :
  let j := (Z2float (_uint8_to_int8 (byte_val b)) / 100)%float in
  (-1.28 <=? j)%float = true /\ (j <=? 1.27)%float = true.
Proof. destruct b; vm_compute; split; reflexivity. Qed.

(** X6: the stored joystick coordinates lie between -1.28 and 1.27, not
    between -1 and +1: after an exchange with a nine-byte reply both are
    floats in that range, and raw bytes 128 and 127 reach the two ends. *)
Theorem joystick_range (packet f : list Z) (w : World)
    (reply : list byte) (rest : list (option (list byte))) (bx by_ : byte) :
  right_pad_array packet 9 = Ok f ->
  spi_is_open w = true ->
  incoming w = Some reply :: rest ->
  List.length reply = 9%nat ->
  nth_error reply JoystickByteIndex.X = Some bx ->
  nth_error reply JoystickByteIndex.Y = Some by_ ->
  exists jx jy,
    joy_x (hat (snd (trancieve packet w))) = PyFloat jx
    /\ joy_y (hat (snd (trancieve packet w))) = PyFloat jy
    /\ (-1.28 <=? jx)%float = true /\ (jx <=? 1.27)%float = true
    /\ (-1.28 <=? jy)%float = true /\ (jy <=? 1.27)%float = true
    /\ (byte_val bx = 128 -> jx = (-1.28)%float)
    /\ (byte_val bx = 127 -> jx = 1.27%float).
Proof.
  intros Hf Ho Hi Hlen Hx Hy.
  rewrite (trancieve_exchange packet f w reply rest Hf Ho Hi).
  destruct reply as [|b0 [|b1 [|b2 r3]]]; try discriminate.
  cbn in Hx, Hy.
  assert (b1 = bx) by congruence. assert (b2 = by_) by congruence.
  subst b1 b2.
  destruct (save_buttons_run (b0 :: bx :: by_ :: r3)
              (mkWorld (hat w) (trace w ++ [Sleep 1000; Xfer f]) true rest))
    as (res & h' & -> & _ & _ & _ & _ & Hjx & Hjy).
  cbn [snd hat].
  destruct (joystick_byte_range bx) as [Hx1 Hx2].
  destruct (joystick_byte_range by_) as [Hy1 Hy2].
  do 2 eexists. split; [exact Hjx|]. split; [exact Hjy|].
  repeat split; try assumption.
  - intros H128. rewrite H128. vm_compute. reflexivity.
  - intros H127. rewrite H127. vm_compute. reflexivity.
Qed.

Lemma joystick_range_witness :
  joy_x (hat (snd (trancieve [SendCommand.NOOP]
                     (mkWorld (mkHat (PyInt 0, PyInt 0, PyInt 0) false false
                                 (PyInt 0) (PyInt 0))
                        [] true [Some far_reply]))))
  = PyFloat 1.27.
Proof.
  destruct (joystick_range [SendCommand.NOOP] [0; 0; 0; 0; 0; 0; 0; 0; 0]
              (mkWorld (mkHat (PyInt 0, PyInt 0, PyInt 0) false false
                          (PyInt 0) (PyInt 0))
                 [] true [Some far_reply])
              far_reply [] x7f x80
              eq_refl eq_refl eq_refl eq_refl eq_refl eq_refl)
    as (jx & jy & Hjx & _ & _ & _ & _ & _ & _ & H127).
  rewrite Hjx. f_equal. apply H127. reflexivity.
Defined.

(** ** Calibration offsets *)

Lemma float_to_int_exact (f : float) (v : Z) :
  py_eq (PyFloat f) (PyInt v) = true -> float_to_int f = Ok v.
Proof.
  unfold py_eq, float_to_int, float_exact.
  destruct (Prim2SF f) as [s|s| |s m e]; try discriminate.
  - intros H. apply Z.eqb_eq in H. f_equal.
    change (2 ^ 0) with 1 in *. rewrite Z.quot_1_r. lia.
  - destruct (Z.leb_spec 0 e) as [He|He].
    + intros H. apply Z.eqb_eq in H. f_equal.
      change (2 ^ 0) with 1 in *. rewrite Z.quot_1_r. lia.
    + intros H. apply Z.eqb_eq in H. f_equal. rewrite H.
      apply Z.quot_mul.
      pose proof (Z.pow_pos_nonneg 2 (- e)). lia.
Qed.

Lemma xy_offsets_first_servo (x y o1 : Z) :
  Z.abs (x + o1) < 2 ^ 53 -> Z.abs y < 2 ^ 53 ->
  exists fx fy,
    _xy_offsets (PyInt x) (PyInt y) (PyInt o1, PyInt 0, PyInt 0)
    = Ok (PyFloat fx, PyFloat fy)
    /\ py_eq (PyFloat fx) (PyInt (x + o1)) = true
    /\ py_eq (PyFloat fy) (PyInt y) = true.
Proof.
  intros Hx Hy.
  destruct (int_to_float_exact (x + o1) Hx) as (fa & Hfa & Ha).
  destruct (int_to_float_exact y Hy) as (fb & Hfb & Hb).
  destruct zero_products as (Hm1 & Hm2 & Hm3).
  exists (fa + (-0) + (-0))%float, (fb + 0 + (-0))%float.
  split; [|split].
  - unfold _xy_offsets. rewrite Hm1, Hm2, Hm3.
    unfold py_add. cbn [as_float rbind]. rewrite Hfa, Hfb.
    reflexivity.
  - apply (add_zero_exact _ (-0)%float true _ eq_refl).
    apply (add_zero_exact _ (-0)%float true _ eq_refl). exact Ha.
  - apply (add_zero_exact _ (-0)%float true _ eq_refl).
    apply (add_zero_exact _ 0%float false _ eq_refl). exact Hb.
Qed.

(** X7: [set_servo_offsets] touches neither the bus nor the clock, and the
    next [set_angles] computes with the new offsets: an offset [o1] on the
    first servo adds to the x angle one for one and leaves y alone.  For
    integer angles with [x + o1] and [y] in the signed-byte range the one
    frame handed over is [[SET_PLATE_ANGLES, x + o1, y, 0, 0, 0, 0, 0, 0]],
    whatever offsets were set before. *)
Theorem set_servo_offsets_then_set_angles (x y o1 : Z) (w : World) :
  fits_int8 (x + o1) -> fits_int8 y ->
  let w1 := snd (set_servo_offsets (PyInt o1) (PyInt 0) (PyInt 0) w) in
  trace w1 = trace w
  /\ poll_buttons (hat w1) = poll_buttons (hat w)
  /\ frames (trace (snd (set_angles (PyInt x) (PyInt y) w1)))
     = frames (trace w)
       ++ [[SendCommand.SET_PLATE_ANGLES; x + o1; y; 0; 0; 0; 0; 0; 0]].
Proof.
  intros Hx Hy w1. subst w1.
  split; [reflexivity|]. split; [reflexivity|].
  destruct (xy_offsets_first_servo x y o1) as (fx & fy & Hxy & Hfx & Hfy);
    [unfold fits_int8 in *; lia|unfold fits_int8 in *; lia|].
  apply (set_angles_sends (PyInt x) (PyInt y)
           (snd (set_servo_offsets (PyInt o1) (PyInt 0) (PyInt 0) w))
           (PyFloat fx) (PyFloat fy) [4; x + o1; y]).
  - exact Hxy.
  - unfold np_array_int8. cbn [rmap np_int8].
    rewrite (float_to_int_exact fx _ Hfx), (float_to_int_exact fy _ Hfy).
    cbn [rbind].
    rewrite (store_int8_ok _ (fits_int8_long _ Hx)),
            (store_int8_ok _ (fits_int8_long _ Hy)).
    rewrite (wrap_int8_small _ Hx), (wrap_int8_small _ Hy).
    reflexivity.
  - rewrite right_pad_array_short.
    + cbn [List.map List.length Nat.sub repeat app].
      rewrite (wrap_int8_small _ Hx), (wrap_int8_small _ Hy). reflexivity.
    + cbn. lia.
    + repeat constructor; try (apply fits_int8_long; assumption).
      unfold fits_long. lia.
Qed.

Lemma set_servo_offsets_then_set_angles_witness :
  frames (trace (snd (set_angles (PyInt 10) (PyInt (-5))
     (snd (set_servo_offsets (PyInt 2) (PyInt 0) (PyInt 0)
             (demo_world (PyInt 9, PyInt 9, PyInt 9)))))))
  = [[4; 12; -5; 0; 0; 0; 0; 0; 0]].
Proof.
  apply (set_servo_offsets_then_set_angles 10 (-5) 2
           (demo_world (PyInt 9, PyInt 9, PyInt 9)));
    unfold fits_int8; lia.
Defined.

(** ** Commands without a settle delay *)

Lemma icon_text_frame (icon : Icon.t) (text : Text.t) :
  right_pad_array
    [SendCommand.TEXT_ICON_SELECT; Icon.value icon; Text.value text] 9
  = Ok [SendCommand.TEXT_ICON_SELECT; Icon.value icon; Text.value text;
        0; 0; 0; 0; 0; 0].
Proof. destruct icon, text; reflexivity. Qed.

(** X8: [set_icon_text] is one exchange and no settle delay: for every icon
    and text of the two enumerations it sleeps 1 ms, hands over the frame
    [[TEXT_ICON_SELECT, icon, text, 0, 0, 0, 0, 0, 0]] and does nothing else
    to the bus or the clock, whether the exchange succeeds or not. *)
Theorem set_icon_text_one_frame (icon : Icon.t) (text : Text.t) (w : World) :
  trace (snd (set_icon_text (Icon.value icon) (Text.value text) w))
  = trace w
    ++ [Sleep 1000;
        Xfer [SendCommand.TEXT_ICON_SELECT; Icon.value icon; Text.value text;
              0; 0; 0; 0; 0; 0]].
Proof.
  unfold set_icon_text.
  apply trancieve_trace. apply icon_text_frame.
Qed.

(** ** Power sequencing *)

Lemma quiet_tail_extend (prefix evs : list event) (h : Hat) (o : bool)
    (inc : list (option (list byte))) (w : World) :
  Forall (fun e => drives_pins e = false) evs ->
  quiet_tail prefix w ->
  quiet_tail prefix (mkWorld h (trace w ++ evs) o inc).
Proof.
  intros Hq (rest & Ht & Hr). exists (rest ++ evs). split.
  - cbn [trace]. rewrite Ht, app_assoc. reflexivity.
  - apply Forall_app. split; assumption.
Qed.

Lemma quiet_tail_same_trace (prefix : list event) (w w' : World) :
  trace w' = trace w -> quiet_tail prefix w -> quiet_tail prefix w'.
Proof. intros Ht (rest & H & Hr). exists rest. rewrite Ht. auto. Qed.

Lemma keeps_quiet_emit (prefix : list event) (e : event) :
  drives_pins e = false ->
  keeps (quiet_tail prefix) (emit e) (fun _ => True).
Proof.
  intros He w Hw. split; [|trivial].
  apply quiet_tail_extend; [|exact Hw]. constructor; [exact He|constructor].
Qed.

Lemma keeps_quiet_trancieve (prefix : list event) (packet : list Z) :
  keeps (quiet_tail prefix) (trancieve packet) (fun _ => True).
Proof.
  intros w Hw. split; [|trivial].
  pose proof (trancieve_run packet w) as Hrun.
  destruct (right_pad_array packet 9) as [f|e] eqn:Hf.
  - destruct Hw as (rest & Ht & Hr).
    exists (rest ++ [Sleep 1000; Xfer f]). split.
    + rewrite (trancieve_trace packet f w Hf), Ht, app_assoc. reflexivity.
    + apply Forall_app. split; [exact Hr|]. repeat constructor.
  - rewrite Hrun. exact Hw.
Qed.

Lemma keeps_quiet_send (prefix : list event) (arr : result (list Z)) :
  keeps (quiet_tail prefix)
    (a <- lift arr ;; trancieve a ;;; sleep 50000)%hat (fun _ => True).
Proof.
  eapply keeps_bind; [apply keeps_lift|]. intros a _.
  eapply keeps_bind; [apply keeps_quiet_trancieve|]. intros _ _.
  apply keeps_quiet_emit. reflexivity.
Qed.

Section PowerFacts.

Variable unicode_upper : N -> list N.

Lemma keeps_quiet_run (prefix : list event) (c : Call) :
  keeps (quiet_tail prefix) (run unicode_upper c) (fun _ => True).
Proof.
  destruct c; cbn [run].
  - apply keeps_quiet_trancieve.
  - apply keeps_quiet_trancieve.
  - apply keeps_quiet_trancieve.
  - unfold set_angles.
    eapply keeps_bind; [apply keeps_get_hat|]. intros self _.
    eapply keeps_bind; [apply keeps_lift|]. intros [px py] _.
    apply keeps_quiet_send.
  - apply keeps_quiet_send.
  - intros w Hw. split; [|trivial].
    apply (quiet_tail_same_trace prefix w); [reflexivity|exact Hw].
  - apply keeps_quiet_trancieve.
  - apply keeps_quiet_send.
  - apply keeps_quiet_send.
  - unfold print_arbitrary_string.
    eapply keeps_bind; [apply keeps_lift|]. intros bs _.
    eapply keeps_bind.
    { destruct (_ <=? 256)%nat;
        [apply keeps_ret|apply (keeps_throw (A := unit))]. }
    intros _ _.
    eapply keeps_bind.
    { apply keeps_for_each. intros i.
      eapply keeps_bind; [apply keeps_lift|]. intros msg _.
      apply keeps_quiet_trancieve. }
    intros _ _. apply keeps_quiet_trancieve.
  - intros w Hw. split; [|trivial].
    apply quiet_tail_extend; [|exact Hw]. repeat constructor.
Qed.

(** X9: the power sequence runs once, at construction, and nothing after it
    opens the bus or drives the mode pins again: the trace of every world
    reached by construction and calls is the eight construction events
    (open, pin setup, HAT_EN low, 20 ms, HAT_EN high, HAT_RESET low, BOOT_EN
    low, 250 ms) followed by events that are sleeps, transfers or the
    closing pair only.  In particular no frame is handed over before the
    250 ms have passed. *)
Theorem power_sequence_once (w : World) :
  reachable unicode_upper w ->
  exists spi_bus spi_device spi_max_speed_hz rest,
    trace w = power_up spi_bus spi_device spi_max_speed_hz ++ rest
    /\ Forall (fun e => drives_pins e = false) rest.
Proof.
  induction 1 as [pf bus dev hz so w Hinit|c w Hr IH].
  - destruct (init_run _ _ _ _ _ _ Hinit) as (_ & Ht & _).
    exists bus, dev, hz, []. rewrite Ht, app_nil_r. split; [reflexivity|].
    constructor.
  - destruct IH as (bus & dev & hz & rest & Ht & Hq).
    exists bus, dev, hz.
    apply (keeps_quiet_run (power_up bus dev hz) c w).
    exists rest. auto.
Qed.

End PowerFacts.

Lemma power_sequence_once_witness :
  exists spi_bus spi_device spi_max_speed_hz rest,
    trace (snd (hover (demo_world (PyInt 0, PyInt 0, PyInt 0))))
    = power_up spi_bus spi_device spi_max_speed_hz ++ rest
    /\ Forall (fun e => drives_pins e = false) rest.
Proof.
  apply (power_sequence_once ascii_only_upper).
  apply (reach_call ascii_only_upper CallHover).
  apply (reach_init ascii_only_upper demo_platform 0 0 10000
           (PyInt 0, PyInt 0, PyInt 0)).
  reflexivity.
Defined.

(** ** Scoped use *)

(** X10: a [with] block always releases the device and never swallows an
    error: whatever the block does, afterwards the closing events are the
    last two of the trace and the handle is closed; the block's value is
    returned and the block's exception is raised again. *)
Theorem with_hat_always_closes {A} (body : M A) (w : World) :
  trace (snd (with_hat body w))
  = trace (snd (body w)) ++ [SpiClose; GpioCleanup]
  /\ spi_is_open (snd (with_hat body w)) = false
  /\ fst (with_hat body w) = fst (body w)
  /\ hat (snd (with_hat body w)) = hat (snd (body w)).
Proof.
  unfold with_hat, __enter__, __exit__, close, bind, ret.
  destruct (body w) as [[a|e] w']; cbn; repeat split.
Qed.

(** ** Display protocol, continued *)

Section DisplayOutcome.

Variable unicode_upper : N -> list N.

(** X11: [print_arbitrary_string] never returns and never reaches the bus,
    for any text: it raises the encoding error when the text cannot be
    encoded, [AssertionError] when the encoded text with its terminator is
    longer than 256 bytes, and otherwise [TypeError] while building the
    first chunk; driver and bus are left as they were. *)
Theorem print_arbitrary_string_outcome (s : pystr) (w : World) :
  print_arbitrary_string unicode_upper s w
  = (Raise match utf8_encode (str_upper unicode_upper s) with
           | Raise e => e
           | Ok bs =>
               if Nat.leb (List.length (bs ++ [0])) 256 then TypeError
               else AssertionError
           end,
     w).
Proof.
  unfold print_arbitrary_string. cbv [bind lift ret throw].
  destruct (utf8_encode (str_upper unicode_upper s)) as [bs|e];
    [|reflexivity].
  destruct (Nat.leb (List.length (bs ++ [0])) 256); [|reflexivity].
  assert (Hn : Nat.div (List.length (bs ++ [0]) + 7) 8
               = S (Nat.div (List.length bs) 8)).
  { rewrite length_app. cbn [List.length].
    replace (List.length bs + 1 + 7)%nat with (List.length bs + 1 * 8)%nat
      by lia.
    rewrite Nat.div_add by lia. lia. }
  rewrite Hn. cbn [seq for_each]. cbv [bind lift list_add]. reflexivity.
Qed.

End DisplayOutcome.

(** ** PID controller *)

Lemma SFcompare_refl (x : spec_float) :
  x <> S754_nan -> SFcompare x x = Some Eq.
Proof.
  destruct x as [s|s| |s m e]; intros H; cbn.
  - reflexivity.
  - destruct s; reflexivity.
  - contradiction.
  - rewrite Z.compare_refl, Pos.compare_cont_refl. destruct s; reflexivity.
Qed.

Lemma leb_refl_left (a b : float) :
  (a <=? b)%float = true -> (a <=? a)%float = true.
Proof.
  rewrite !FloatAxioms.leb_spec. unfold SFleb. intros H.
  rewrite SFcompare_refl; [reflexivity|].
  intros Hn. rewrite Hn in H. discriminate.
Qed.

Lemma leb_refl_right (a b : float) :
  (a <=? b)%float = true -> (b <=? b)%float = true.
Proof.
  rewrite !FloatAxioms.leb_spec. unfold SFleb. intros H.
  rewrite SFcompare_refl; [reflexivity|].
  intros Hn. rewrite Hn in H.
  destruct (Prim2SF a); discriminate.
Qed.

Lemma ltb_leb (a b : float) :
  (a <? b)%float = true -> (a <=? b)%float = true.
Proof.
  rewrite FloatAxioms.ltb_spec, FloatAxioms.leb_spec. unfold SFltb, SFleb.
  destruct (SFcompare (Prim2SF a) (Prim2SF b)) as [[| |]|];
    intros H; try discriminate; reflexivity.
Qed.

Lemma leb_not_nan (a b : float) :
  (a <=? b)%float = true -> isnan a = false.
Proof.
  intros H. apply leb_refl_left in H. unfold isnan.
  rewrite FloatAxioms.leb_spec in H. rewrite FloatAxioms.eqb_spec.
  unfold SFleb, SFeqb in *.
  destruct (Prim2SF a) as [s|s| |s m e]; try discriminate; cbn in *.
  - reflexivity.
  - destruct s; reflexivity.
  - rewrite Z.compare_refl, Pos.compare_cont_refl. destruct s; reflexivity.
Qed.

(** Clipping a number between two ordered bounds gives a number between
    them. *)
Lemma np_clip_bounds (a lo hi : float) :
  isnan a = false -> (lo <=? hi)%float = true ->
  (lo <=? np_min (np_max a lo) hi)%float = true
  /\ (np_min (np_max a lo) hi <=? hi)%float = true.
Proof.
  intros Ha Hb. unfold np_max. rewrite Ha.
  pose proof (leb_refl_right lo hi Hb) as Hhi.
  pose proof (leb_not_nan lo hi Hb) as Hlo.
  destruct (lo <? a)%float eqn:Hla.
  - unfold np_min. rewrite Ha.
    destruct (a <? hi)%float eqn:Hah.
    + split; apply ltb_leb; assumption.
    + split; assumption.
  - unfold np_min. rewrite Hlo.
    destruct (lo <? hi)%float eqn:Hlh.
    + split; [apply (leb_refl_left lo hi Hb)|exact Hb].
    + split; assumption.
Qed.

Lemma np_clip_nan (a lo hi : float) :
  isnan a = true -> np_min (np_max a lo) hi = a.
Proof. intros Ha. unfold np_max, np_min. rewrite Ha, Ha. reflexivity. Qed.

Lemma float_sum_is_float (a1 a4 : pynum) (f2 : float) (r : pynum) :
  (a3 <- py_add a1 (PyFloat f2) ;; py_add a3 a4)%res = Ok r ->
  exists f, r = PyFloat f.
Proof.
  unfold py_add.
  destruct a1 as [z1|f1]; cbn [as_float rbind].
  - destruct (int_to_float z1) as [g1|e]; cbn [rbind]; [|discriminate].
    destruct a4 as [z4|f4]; cbn [as_float rbind].
    + destruct (int_to_float z4) as [g4|e]; cbn [rbind]; [|discriminate].
      intros H. apply Ok_inj in H. eauto.
    + intros H. apply Ok_inj in H. eauto.
  - destruct a4 as [z4|f4]; cbn [as_float rbind].
    + destruct (int_to_float z4) as [g4|e]; cbn [rbind]; [|discriminate].
      intros H. apply Ok_inj in H. eauto.
    + intros H. apply Ok_inj in H. eauto.
Qed.

Lemma float_product (ki : float) (s r : pynum) :
  py_mul (PyFloat ki) s = Ok r -> exists f, r = PyFloat f.
Proof.
  unfold py_mul. cbn [as_float rbind].
  destruct s as [z|f]; cbn [as_float rbind].
  - destruct (int_to_float z) as [g|e]; cbn [rbind]; [|discriminate].
    intros H. apply Ok_inj in H. eauto.
  - intros H. apply Ok_inj in H. eauto.
Qed.

Lemma SFcompare_Eq (x y : spec_float) :
  SFcompare x y = Some Eq ->
  x = y \/ exists s s', x = S754_zero s /\ y = S754_zero s'.
Proof.
  destruct x as [s|s| |s m e], y as [s'|s'| |s' m' e']; cbn;
    try discriminate.
  - intros _. right. eauto.
  - destruct s'; discriminate.
  - destruct s'; discriminate.
  - destruct s; discriminate.
  - destruct s, s'; try discriminate; intros _; left; reflexivity.
  - destruct s; discriminate.
  - destruct s; discriminate.
  - destruct s'; discriminate.
  - destruct s, s'; try discriminate;
      destruct (Z.compare_spec e e') as [He|He|He]; try discriminate;
      intros H; left; subst e'; f_equal.
    + destruct (Pos.compare_cont Eq m m') eqn:Hc; try discriminate.
      apply Pos.compare_eq in Hc. exact Hc.
    + apply Pos.compare_eq.
      change (Pos.compare m m') with (Pos.compare_cont Eq m m').
      congruence.
Qed.

Lemma SFeqb_refl (x : spec_float) : x <> S754_nan -> SFeqb x x = true.
Proof. intros H. unfold SFeqb. rewrite SFcompare_refl by exact H. reflexivity. Qed.

Lemma SFeqb_sym (x y : spec_float) : SFeqb x y = true -> SFeqb y x = true.
Proof.
  unfold SFeqb. destruct (SFcompare x y) as [[| |]|] eqn:Hc; try discriminate.
  intros _. destruct (SFcompare_Eq x y Hc) as [->|(s & s' & -> & ->)].
  - rewrite Hc. reflexivity.
  - reflexivity.
Qed.

Lemma SFeqb_trans (x y z : spec_float) :
  SFeqb x y = true -> SFeqb y z = true -> SFeqb x z = true.
Proof.
  unfold SFeqb.
  destruct (SFcompare x y) as [[| |]|] eqn:Hxy; try discriminate.
  destruct (SFcompare y z) as [[| |]|] eqn:Hyz; try discriminate.
  intros _ _.
  destruct (SFcompare_Eq x y Hxy) as [->|(s & s' & -> & ->)].
  - rewrite Hyz. reflexivity.
  - destruct (SFcompare_Eq _ z Hyz) as [<-|(t & t' & _ & ->)]; reflexivity.
Qed.

Lemma leb_not_ltb (a b : float) :
  (a <=? b)%float = true -> (a <? b)%float = false -> (a =? b)%float = true.
Proof.
  rewrite FloatAxioms.leb_spec, FloatAxioms.ltb_spec, FloatAxioms.eqb_spec.
  unfold SFleb, SFltb, SFeqb.
  destruct (SFcompare (Prim2SF a) (Prim2SF b)) as [[| |]|];
    intros; try discriminate; reflexivity.
Qed.

Lemma isnan_eqb (a : float) : isnan a = false -> (a =? a)%float = true.
Proof. unfold isnan. destruct (a =? a)%float; [reflexivity|discriminate]. Qed.

Lemma leb_not_nan_right (a b : float) :
  (a <=? b)%float = true -> isnan b = false.
Proof. intros H. apply (leb_not_nan b b), (leb_refl_right a b H). Qed.

(** NumPy's clip between two ordered bounds. *)
Lemma np_clip_clipped (f lo hi : float) :
  (lo <=? hi)%float = true -> clipped lo hi f (np_min (np_max f lo) hi).
Proof.
  intros Hb.
  pose proof (leb_not_nan lo hi Hb) as Hlo.
  pose proof (leb_not_nan_right lo hi Hb) as Hhi.
  unfold clipped. split; [|split; [|split]].
  - destruct (isnan f) eqn:Hf.
    + rewrite (np_clip_nan f lo hi Hf). exact Hf.
    + destruct (np_clip_bounds f lo hi Hf Hb) as [H _].
      apply (leb_not_nan_right _ _ H).
  - unfold np_max, np_min.
    destruct (isnan f) eqn:Hf; [rewrite Hf; left; reflexivity|].
    destruct (lo <? f)%float.
    + rewrite Hf. destruct (f <? hi)%float; auto.
    + rewrite Hlo. destruct (lo <? hi)%float; auto.
  - intros Hf. apply np_clip_bounds; assumption.
  - intros H1 H2.
    pose proof (leb_not_nan_right lo f H1) as Hf.
    unfold np_max, np_min. rewrite Hf.
    destruct (lo <? f)%float eqn:Hlf.
    + rewrite Hf. destruct (f <? hi)%float eqn:Hfh.
      * apply isnan_eqb, Hf.
      * pose proof (leb_not_ltb f hi H2 Hfh) as E.
        rewrite FloatAxioms.eqb_spec in *. apply SFeqb_sym, E.
    + pose proof (leb_not_ltb lo f H1 Hlf) as E1.
      rewrite Hlo. destruct (lo <? hi)%float eqn:Hlh.
      * exact E1.
      * pose proof (leb_not_ltb lo hi Hb Hlh) as E2.
        rewrite FloatAxioms.eqb_spec in *.
        apply (SFeqb_trans _ (Prim2SF lo)); [apply SFeqb_sym, E2|exact E1].
Qed.

Lemma pid_sum_float (Kp Kd p s v : pynum) (ki : float) (r : pynum) :
  pid_sum Kp (PyFloat ki) Kd p s v = Ok r -> exists f, r = PyFloat f.
Proof.
  unfold pid_sum.
  destruct (py_mul Kp p) as [a1|e]; cbn [rbind]; [|discriminate].
  destruct (py_mul (PyFloat ki) s) as [a2|e] eqn:Ha2; cbn [rbind];
    [|discriminate].
  destruct (float_product ki s a2 Ha2) as [f2 ->].
  destruct (py_add a1 (PyFloat f2)) as [a3|e] eqn:Ha3; cbn [rbind];
    [|discriminate].
  destruct (py_mul Kd v) as [a4|e]; cbn [rbind]; [|discriminate].
  intros H. apply (float_sum_is_float a1 a4 f2 r).
  rewrite Ha3. cbn [rbind]. exact H.
Qed.

Lemma pid_controller_sums (Kp Ki Kd max_angle x y vel_x vel_y sum_x sum_y : pynum) :
  pid_controller Kp Ki Kd max_angle x y vel_x vel_y sum_x sum_y true
  = (action_x <- pid_sum Kp Ki Kd x sum_x vel_x ;;
     action_y <- pid_sum Kp Ki Kd y sum_y vel_y ;;
     action_x <- np_clip action_x (py_neg max_angle) max_angle ;;
     action_y <- np_clip action_y (py_neg max_angle) max_angle ;;
     Ok (action_x, action_y))%res.
Proof.
  unfold pid_controller, pid_sum.
  destruct (py_mul Kp x) as [a1|e]; cbn [rbind]; [|reflexivity].
  destruct (py_mul Ki sum_x) as [a2|e]; cbn [rbind]; [|reflexivity].
  destruct (py_add a1 a2) as [a3|e]; cbn [rbind]; [|reflexivity].
  destruct (py_mul Kd vel_x) as [a4|e]; cbn [rbind]; [|reflexivity].
  destruct (py_add a3 a4) as [ax|e]; cbn [rbind]; [|reflexivity].
  destruct (py_mul Kp y) as [b1|e]; cbn [rbind]; [|reflexivity].
  destruct (py_mul Ki sum_y) as [b2|e]; cbn [rbind]; [|reflexivity].
  destruct (py_add b1 b2) as [b3|e]; cbn [rbind]; [|reflexivity].
  destruct (py_mul Kd vel_y) as [b4|e]; cbn [rbind]; reflexivity.
Qed.

(** X12: the PID controller never asks for more than [max_angle].  With a
    float integral gain (the default is 0.5) and a [max_angle] that is not
    below its own negative, [float(-max_angle) <= float(max_angle)] (so
    [max_angle] is a number and not negative), every action returned for a
    detected ball has two float coordinates, each of them the unclipped sum
    [Kp * p + Ki * s + Kd * v] of its axis clipped to the two bounds: it is
    [nan] exactly when the unclipped sum is [nan], otherwise it lies between
    [-max_angle] and [max_angle]; it is the unclipped sum, or one of the two
    bounds; and it equals the unclipped sum when that lies between the
    bounds.  Without a ball the action is [(0, 0)]. *)
Theorem pid_controller_clipped (Kp Kd max_angle : pynum) (ki : float)
    (x y vel_x vel_y sum_x sum_y : pynum) (lo hi : float) (action : Vector2) :
  as_float (py_neg max_angle) = Ok lo ->
  as_float max_angle = Ok hi ->
  (lo <=? hi)%float = true ->
  pid_controller Kp (PyFloat ki) Kd max_angle x y vel_x vel_y sum_x sum_y true
  = Ok action ->
  (exists fx fy ax ay,
     pid_sum Kp (PyFloat ki) Kd x sum_x vel_x = Ok (PyFloat fx)
     /\ pid_sum Kp (PyFloat ki) Kd y sum_y vel_y = Ok (PyFloat fy)
     /\ action = (PyFloat ax, PyFloat ay)
     /\ clipped lo hi fx ax
     /\ clipped lo hi fy ay)
  /\ pid_controller Kp (PyFloat ki) Kd max_angle x y vel_x vel_y sum_x sum_y
       false
     = Ok (PyInt 0, PyInt 0).
Proof.
  intros Hlo Hhi Hle Hrun. split; [|reflexivity].
  rewrite pid_controller_sums in Hrun.
  destruct (pid_sum Kp (PyFloat ki) Kd x sum_x vel_x) as [sx|e] eqn:Hsx;
    cbn [rbind] in Hrun; [|discriminate].
  destruct (pid_sum_float _ _ _ _ _ _ _ Hsx) as [fx ->].
  destruct (pid_sum Kp (PyFloat ki) Kd y sum_y vel_y) as [sy|e] eqn:Hsy;
    cbn [rbind] in Hrun; [|discriminate].
  destruct (pid_sum_float _ _ _ _ _ _ _ Hsy) as [fy ->].
  unfold np_clip in Hrun. cbn [as_float rbind] in Hrun.
  rewrite Hlo, Hhi in Hrun. cbn [rbind] in Hrun.
  apply Ok_inj in Hrun. subst action.
  exists fx, fy, (np_min (np_max fx lo) hi), (np_min (np_max fy lo) hi).
  split; [reflexivity|]. split; [reflexivity|]. split; [reflexivity|].
  split; apply np_clip_clipped; exact Hle.
Qed.

Lemma pid_controller_clipped_witness :
  pid_controller (PyInt 75) (PyFloat 0.5) (PyInt 45) (PyInt 22)
    (PyFloat 0.5) (PyFloat (-0.01)) (PyFloat 0) (PyFloat 0)
    (PyFloat 0) (PyFloat 0) true
  = Ok (PyFloat 22, PyFloat (-0.75))
  /\ pid_sum (PyInt 75) (PyFloat 0.5) (PyInt 45) (PyFloat 0.5) (PyFloat 0)
       (PyFloat 0)
     = Ok (PyFloat 37.5)
  /\ pid_sum (PyInt 75) (PyFloat 0.5) (PyInt 45) (PyFloat (-0.01)) (PyFloat 0)
       (PyFloat 0)
     = Ok (PyFloat (-0.75))
  /\ exists fx fy ax ay,
       pid_sum (PyInt 75) (PyFloat 0.5) (PyInt 45) (PyFloat 0.5) (PyFloat 0)
         (PyFloat 0)
       = Ok (PyFloat fx)
       /\ pid_sum (PyInt 75) (PyFloat 0.5) (PyInt 45) (PyFloat (-0.01))
            (PyFloat 0) (PyFloat 0)
          = Ok (PyFloat fy)
       /\ (PyFloat 22, PyFloat (-0.75)) = (PyFloat ax, PyFloat ay)
       /\ clipped (-22) 22 fx ax
       /\ clipped (-22) 22 fy ay.
Proof.
  split; [vm_compute; reflexivity|].
  split; [vm_compute; reflexivity|].
  split; [vm_compute; reflexivity|].
  apply (proj1 (pid_controller_clipped (PyInt 75) (PyInt 45) (PyInt 22) 0.5
                  (PyFloat 0.5) (PyFloat (-0.01)) (PyFloat 0) (PyFloat 0)
                  (PyFloat 0) (PyFloat 0) (-22) 22
                  (PyFloat 22, PyFloat (-0.75))
                  ltac:(vm_compute; reflexivity) ltac:(vm_compute; reflexivity)
                  ltac:(vm_compute; reflexivity)
                  ltac:(vm_compute; reflexivity))).
Defined.

(** * Debug decorators *)

Section DecoratorFacts.

Variables Args Outside Exc : Type.
Variable imwrite :
  string -> Args -> Outside -> Debug.outcome Exc unit * Outside.

Lemma run_callbacks_app (l1 l2 : list (Debug.callback Args Outside Exc)) (args : Args) (o : Outside) :
  Debug.run_callbacks (l1 ++ l2) args o
  = match Debug.run_callbacks l1 args o with
    | (Debug.Returned _, o') => Debug.run_callbacks l2 args o'
    | (Debug.Raised e, o') => (Debug.Raised e, o')
    end.
Proof.
  revert o. induction l1 as [|c l1 IH]; intros o; cbn.
  - reflexivity.
  - destruct (c args o) as [[[]|e] o']; [apply IH|reflexivity].
Qed.

(** X13: callbacks run in the order they were added, and a later one runs
    only when all earlier ones have returned: decorating after
    [addCallback(fn)] is decorating as before and then, if nothing raised,
    calling [fn] on the same [args] in the world the others left; the
    exception of an earlier callback goes out without [fn] being called. *)
Theorem added_callback_runs_last (fn : Debug.callback Args Outside Exc) (args : Args) (w : Debug.World Args Outside Exc) :
  Debug.CallbackDecorator_decorate args (Debug.addCallback fn w)
  = match Debug.CallbackDecorator_decorate args w with
    | (Debug.Raised e, w') => (Debug.Raised e, Debug.addCallback fn w')
    | (Debug.Returned _, w') =>
        (fst (fn args (Debug.outside w')),
         Debug.addCallback fn
           (Debug.mkWorld (Debug.deco w') (snd (fn args (Debug.outside w')))
              (Debug.written w')))
    end.
Proof.
  unfold Debug.CallbackDecorator_decorate, Debug.addCallback.
  cbn [Debug.deco Debug.callbacks Debug.outside Debug.written].
  rewrite run_callbacks_app.
  destruct (Debug.run_callbacks (Debug.callbacks (Debug.deco w)) args
              (Debug.outside w)) as [[[]|e] o'].
  - cbn. destruct (fn args o') as [[[]|e] o'']; reflexivity.
  - reflexivity.
Qed.

Lemma decorate_disabled (args : Args) (w : Debug.World Args Outside Exc) :
  Debug.disable (Debug.deco w) = true ->
  Debug.disable (Debug.deco (snd (Debug.decorate imwrite args w))) = true
  /\ Debug.written (snd (Debug.decorate imwrite args w)) = Debug.written w.
Proof.
  intros Hd. unfold Debug.decorate, Debug.CallbackDecorator_decorate.
  destruct (Debug.run_callbacks (Debug.callbacks (Debug.deco w)) args
              (Debug.outside w)) as [[[]|e] o']; cbn.
  - rewrite Hd. cbn. auto.
  - auto.
Qed.

Lemma steps_disabled (ops : list (Debug.Op Args Outside Exc))
    (w : Debug.World Args Outside Exc) :
  Debug.disable (Debug.deco w) = true ->
  Debug.disable (Debug.deco (Debug.steps imwrite ops w)) = true
  /\ Debug.written (Debug.steps imwrite ops w) = Debug.written w.
Proof.
  revert w. unfold Debug.steps.
  induction ops as [|op ops IH]; intros w Hd; cbn [fold_left].
  - auto.
  - destruct op as [fn|args]; cbn [Debug.step].
    + apply (IH (Debug.addCallback fn w)). exact Hd.
    + destruct (decorate_disabled args w Hd) as [Hd' Hw'].
      destruct (IH (snd (Debug.decorate imwrite args w)) Hd') as [H1 H2].
      split; [exact H1|]. rewrite H2. exact Hw'.
Qed.

(** X14: a write that fails is swallowed and is the last one tried: when the
    callbacks return, the decorator is not yet disabled and [cv2.imwrite]
    raises, [decorate] returns normally, and after it no sequence of
    [addCallback] and [decorate] calls ever calls [cv2.imwrite] again. *)
Theorem failed_write_disables_for_good (args : Args) (w : Debug.World Args Outside Exc)
    (o1 o2 : Outside) (e : Exc) (ops : list (Debug.Op Args Outside Exc)) :
  Debug.run_callbacks (Debug.callbacks (Debug.deco w)) args (Debug.outside w)
  = (Debug.Returned tt, o1) ->
  Debug.disable (Debug.deco w) = false ->
  imwrite (Debug.filename (Debug.deco w)) args o1 = (Debug.Raised e, o2) ->
  fst (Debug.decorate imwrite args w) = Debug.Returned tt
  /\ Debug.written (snd (Debug.decorate imwrite args w))
     = Debug.written w ++ [(Debug.filename (Debug.deco w), args)]
  /\ Debug.written (Debug.steps imwrite ops (snd (Debug.decorate imwrite args w)))
     = Debug.written w ++ [(Debug.filename (Debug.deco w), args)]
  /\ Debug.disable (Debug.deco (Debug.steps imwrite ops (snd (Debug.decorate imwrite args w)))) = true.
Proof.
  intros Hcb Hd Hw.
  assert (Hdec : Debug.decorate imwrite args w
                 = (Debug.Returned tt,
                    Debug.mkWorld
                      (Debug.mkFileDecorator
                         (Debug.callbacks (Debug.deco w))
                         (Debug.filename (Debug.deco w)) true)
                      o2
                      (Debug.written w
                       ++ [(Debug.filename (Debug.deco w), args)]))).
  { unfold Debug.decorate, Debug.CallbackDecorator_decorate.
    rewrite Hcb. cbn. rewrite Hd, Hw. reflexivity. }
  rewrite Hdec. cbn [fst snd]. split; [reflexivity|]. split; [reflexivity|].
  destruct (steps_disabled ops
              (Debug.mkWorld
                 (Debug.mkFileDecorator (Debug.callbacks (Debug.deco w))
                    (Debug.filename (Debug.deco w)) true)
                 o2
                 (Debug.written w ++ [(Debug.filename (Debug.deco w), args)]))
              eq_refl) as [H1 H2].
  split; [exact H2|exact H1].
Qed.

(** X15: a callback that raises keeps the frame from being written and does
    not disable the decorator: [decorate] raises the callback's exception,
    [cv2.imwrite] is not called, and [disable], [filename] and the callbacks
    are as before. *)
Theorem raising_callback_skips_write (args : Args) (w : Debug.World Args Outside Exc)
    (o1 : Outside) (e : Exc) :
  Debug.run_callbacks (Debug.callbacks (Debug.deco w)) args (Debug.outside w)
  = (Debug.Raised e, o1) ->
  Debug.decorate imwrite args w
  = (Debug.Raised e, Debug.mkWorld (Debug.deco w) o1 (Debug.written w)).
Proof.
  intros Hcb. unfold Debug.decorate, Debug.CallbackDecorator_decorate.
  rewrite Hcb. reflexivity.
Qed.

End DecoratorFacts.

Lemma failed_write_disables_for_good_witness :
  let fails := fun (_ : string) (_ : nat) (o : nat) =>
                 (@Debug.Raised bool unit true, o) in
  let count := fun (_ : nat) (o : nat) => (@Debug.Returned bool unit tt, S o) in
  let w := Debug.mkWorld
             (Debug.mkFileDecorator [count] "/tmp/camera/frame.jpg" false)
             0%nat [] in
  Debug.written
    (Debug.steps fails [Debug.OpDecorate 8%nat; Debug.OpAddCallback count;
                        Debug.OpDecorate 9%nat]
       (snd (Debug.decorate fails 7%nat w)))
  = [("/tmp/camera/frame.jpg"%string, 7%nat)].
Proof.
  intros fails count w.
  apply (failed_write_disables_for_good nat nat bool fails 7%nat w 1%nat 1%nat
           true
           [Debug.OpDecorate 8%nat; Debug.OpAddCallback count;
            Debug.OpDecorate 9%nat]
           eq_refl eq_refl eq_refl).
Defined.

Lemma raising_callback_skips_write_witness :
  let writes := fun (_ : string) (_ : nat) (o : nat) =>
                  (@Debug.Returned bool unit tt, o) in
  let raises := fun (_ : nat) (o : nat) => (@Debug.Raised bool unit true, S o) in
  let w := Debug.mkWorld
             (Debug.mkFileDecorator [raises] "/tmp/camera/frame.jpg" false)
             0%nat [] in
  Debug.decorate writes 7%nat w
  = (Debug.Raised true,
     Debug.mkWorld
       (Debug.mkFileDecorator [raises] "/tmp/camera/frame.jpg" false)
       1%nat []).
Proof.
  intros writes raises w.
  apply (raising_callback_skips_write nat nat bool writes 7%nat w 1%nat true
           eq_refl).
Defined.

(** * Ball status row *)

Lemma store_update_app (h : BallDetect.store) (d : BallDetect.dict)
    (f : BallDetect.dict -> BallDetect.dict) :
  BallDetect.store_update (h ++ [d]) (List.length h) f = h ++ [f d].
Proof.
  induction h as [|d0 h IH]; cbn; [reflexivity|]. rewrite IH. reflexivity.
Qed.

Lemma remove_dots_clean (s : string) :
  ~ In "."%char (list_ascii_of_string (BallDetect.remove_dots s)).
Proof.
  induction s as [|c s IH]; cbn; [tauto|].
  destruct (Ascii.eqb_spec c "."%char) as [->|Hne]; [exact IH|].
  cbn. intros [H|H]; [congruence|exact (IH H)].
Qed.

Lemma last_cons {A} (l : list A) (a d : A) : List.last (a :: l) d = List.last l a.
Proof.
  revert a d. induction l as [|b l IH]; intros a d; [reflexivity|].
  change (List.last (a :: b :: l) d) with (List.last (b :: l) d).
  rewrite (IH b d), (IH b a). reflexivity.
Qed.

Lemma getEntities_run (self : BallDetect.Ball)
    (statuses : list BallDetect.pyval) (h : BallDetect.store)
    (pk rk ip : BallDetect.pyval) (v : BallDetect.pyval) :
  BallDetect.ball self = List.length h ->
  let row : BallDetect.pyval -> BallDetect.dict :=
    fun s => [("PartitionKey"%string, pk); ("RowKey"%string, rk);
              ("IP"%string, ip); ("STATUS"%string, s)] in
  BallDetect.getEntities self statuses (h ++ [row v])
  = (List.map (fun _ => List.length h) statuses,
     h ++ [row (List.last statuses v)]).
Proof.
  intros Hb row. revert v.
  induction statuses as [|s rest IH]; intros v; [reflexivity|].
  cbn [BallDetect.getEntities BallDetect.getEntity].
  rewrite Hb, store_update_app.
  change (BallDetect.dict_set (row v) "STATUS" s) with (row s).
  rewrite (IH s), last_cons. reflexivity.
Qed.

(** X16: [getEntity] hands out one and the same dict every time: after
    construction and any calls, every reference returned is the reference
    of the object's own dict, and that dict holds the IP without its dots
    as [PartitionKey] (no dot left in it), ['ball detect'] as [RowKey], the
    IP, and as [STATUS] the status of the latest call ([False] before any),
    so that an entity obtained earlier shows the latest status too.  The
    dicts that were in the store before are untouched. *)
Theorem getEntity_shares_one_dict (ip : string) (h h0 : BallDetect.store)
    (self : BallDetect.Ball) (statuses : list BallDetect.pyval) :
  BallDetect.Ball__init__ (Ok ip) h = Ok (self, h0) ->
  let refs := fst (BallDetect.getEntities self statuses h0) in
  let hf := snd (BallDetect.getEntities self statuses h0) in
  Forall (fun r => r = BallDetect.ball self) refs
  /\ List.length refs = List.length statuses
  /\ nth_error hf (BallDetect.ball self)
     = Some [("PartitionKey"%string,
              BallDetect.VStr (BallDetect.remove_dots ip));
             ("RowKey"%string, BallDetect.VStr "ball detect");
             ("IP"%string, BallDetect.VStr ip);
             ("STATUS"%string,
              List.last statuses (BallDetect.VBool false))]
  /\ ~ In "."%char (list_ascii_of_string (BallDetect.remove_dots ip))
  /\ firstn (List.length h) hf = h.
Proof.
  intros Hinit. cbv zeta.
  unfold BallDetect.Ball__init__ in Hinit. cbn [rbind] in Hinit.
  apply Ok_inj in Hinit. injection Hinit as <- <-.
  rewrite getEntities_run by reflexivity.
  cbn [fst snd BallDetect.ball].
  split; [|split; [|split; [|split]]].
  - apply Forall_forall. intros r Hr. apply in_map_iff in Hr.
    destruct Hr as (_ & Hr & _). symmetry. exact Hr.
  - apply length_map.
  - rewrite nth_error_app2 by lia. rewrite Nat.sub_diag. reflexivity.
  - apply remove_dots_clean.
  - rewrite firstn_app, Nat.sub_diag, firstn_all. cbn. apply app_nil_r.
Qed.

Lemma getEntity_shares_one_dict_witness :
  let self :=
    BallDetect.mkBall "192.168.1.7" "19216817" "ball detect" false 0%nat in
  nth_error
    (snd (BallDetect.getEntities self
            [BallDetect.VBool true; BallDetect.VBool false;
             BallDetect.VBool true]
            [[("PartitionKey"%string, BallDetect.VStr "19216817");
              ("RowKey"%string, BallDetect.VStr "ball detect");
              ("IP"%string, BallDetect.VStr "192.168.1.7");
              ("STATUS"%string, BallDetect.VBool false)]]))
    0%nat
  = Some [("PartitionKey"%string, BallDetect.VStr "19216817");
          ("RowKey"%string, BallDetect.VStr "ball detect");
          ("IP"%string, BallDetect.VStr "192.168.1.7");
          ("STATUS"%string, BallDetect.VBool true)].
Proof.
  intros self.
  apply (proj1 (proj2 (proj2
           (getEntity_shares_one_dict "192.168.1.7" [] _ self
              [BallDetect.VBool true; BallDetect.VBool false;
               BallDetect.VBool true]
              eq_refl)))).
Defined.

(** * Info screen *)

Section InfoScreenFacts.

Variable unicode_upper : N -> list N.
Variable py_int : pystr -> result Z.

(** X17: [print_info_screen] never shows anything: whatever the version
    variable and the socket give, the call raises (an error of reading the
    version or the address, [ValueError] from unpacking, or the error of
    [print_arbitrary_string]) and leaves driver and bus as they were. *)
Theorem print_info_screen_raises (MOABIAN : option pystr)
    (sockname : result pystr) (w : World) :
  exists e,
    print_info_screen unicode_upper py_int MOABIAN sockname w = (Raise e, w).
Proof.
  unfold print_info_screen. cbv [bind lift throw].
  destruct (_get_sw_version py_int MOABIAN) as [ver|e];
    [|exists e; reflexivity].
  destruct ver as [|a [|b [|c [|d ver]]]];
    try (exists ValueError; reflexivity).
  destruct (_get_host_ip py_int sockname) as [ip|e];
    [|exists e; reflexivity].
  destruct ip as [|i1 [|i2 [|i3 [|i4 [|i5 ip]]]]];
    try (exists ValueError; reflexivity).
  eexists. apply print_arbitrary_string_outcome.
Qed.

End InfoScreenFacts.

(** * Truncation in [set_angles] *)

Lemma cancelling_checked :
  forallb (fun y => forallb (cancelling_check y) (Z_range (-100) 201))
    (Z_range (-100) 201)
  = true.
Proof. vm_compute. reflexivity. Qed.

Lemma cancelling_frame_is_set_angles (y o : Z) (f : list Z) (w : World) :
  cancelling_frame y o = Ok f ->
  frames (trace (snd (set_angles (PyInt 0) (PyInt y)
                        (with_offsets (PyInt 0, PyInt o, PyInt o) w))))
  = frames (trace w) ++ [f].
Proof.
  unfold cancelling_frame. intros H.
  destruct (_xy_offsets (PyInt 0) (PyInt y) (PyInt 0, PyInt o, PyInt o))
    as [[px py]|e] eqn:Hxy; cbn [rbind] in H; [|discriminate].
  destruct (np_array_int8 [PyInt SendCommand.SET_PLATE_ANGLES; px; py])
    as [arr|e] eqn:Ha; cbn [rbind] in H; [|discriminate].
  apply (set_angles_sends (PyInt 0) (PyInt y)
           (with_offsets (PyInt 0, PyInt o, PyInt o) w) px py arr f);
    assumption.
Qed.

Lemma cancelling_frame_shape (y o : Z) :
  -100 <= y <= 100 -> -100 <= o <= 100 ->
  exists vy,
    cancelling_frame y o
    = Ok [SendCommand.SET_PLATE_ANGLES; - o; vy; 0; 0; 0; 0; 0; 0]
    /\ Z.abs vy <= Z.abs y /\ Z.abs (y - vy) <= 1.
Proof.
  intros Hy Ho.
  pose proof cancelling_checked as Hall.
  rewrite forallb_forall in Hall.
  specialize (Hall y (Z_range_complete (-100) 201 y ltac:(lia))).
  rewrite forallb_forall in Hall.
  specialize (Hall o (Z_range_complete (-100) 201 o ltac:(lia))).
  unfold cancelling_check in Hall.
  destruct (cancelling_frame y o) as [f|e]; [|discriminate].
  destruct f as [|c [|vx [|vy f]]]; try discriminate.
  repeat match type of Hall with
         | match ?t with _ => _ end = true => destruct t; try discriminate
         end.
  apply andb_true_iff in Hall. destruct Hall as [Hall H4].
  apply andb_true_iff in Hall. destruct Hall as [Hall H3].
  apply andb_true_iff in Hall. destruct Hall as [H1 H2].
  apply Z.eqb_eq in H1, H2. apply Z.leb_le in H3, H4. subst c vx.
  exists vy. auto.
Qed.

(** X18: the angles are cut toward zero, not rounded, after the float
    arithmetic, so equal offsets on servos 2 and 3, which cancel in the y
    formula, can still cost a degree: for [y] and [o] between -100 and 100,
    [set_angles(0, y)] with offsets [(0, o, o)] hands over one frame whose x
    entry is [-o] and whose y entry is [y] or one nearer to zero; for
    [y = 7] and [o = 2] it is 6. *)
Theorem cancelling_offsets_truncate (y o : Z) (w : World) :
  -100 <= y <= 100 -> -100 <= o <= 100 ->
  (exists vy,
     frames (trace (snd (set_angles (PyInt 0) (PyInt y)
                           (with_offsets (PyInt 0, PyInt o, PyInt o) w))))
     = frames (trace w)
       ++ [[SendCommand.SET_PLATE_ANGLES; - o; vy; 0; 0; 0; 0; 0; 0]]
     /\ Z.abs vy <= Z.abs y /\ Z.abs (y - vy) <= 1)
  /\ frames (trace (snd (set_angles (PyInt 0) (PyInt 7)
                           (with_offsets (PyInt 0, PyInt 2, PyInt 2) w))))
     = frames (trace w)
       ++ [[SendCommand.SET_PLATE_ANGLES; -2; 6; 0; 0; 0; 0; 0; 0]].
Proof.
  intros Hy Ho. split.
  - destruct (cancelling_frame_shape y o Hy Ho) as (vy & Hf & H1 & H2).
    exists vy. split; [|auto].
    apply (cancelling_frame_is_set_angles y o _ w Hf).
  - apply (cancelling_frame_is_set_angles 7 2). vm_compute. reflexivity.
Qed.

Lemma cancelling_offsets_truncate_witness :
  frames (trace (snd (set_angles (PyInt 0) (PyInt 7)
                        (demo_world (PyInt 0, PyInt 2, PyInt 2)))))
  = [[4; -2; 6; 0; 0; 0; 0; 0; 0]].
Proof.
  apply (proj2 (cancelling_offsets_truncate (-22) 5
                  (demo_world (PyInt 0, PyInt 0, PyInt 0))
                  ltac:(lia) ltac:(lia))).
Defined.

(** * Single-instance guard *)

Lemma lookup_write_same (fs : list (string * string)) (path content : string) :
  ProcId.lookup (ProcId.write_file fs path content) path = Some content.
Proof.
  induction fs as [|[p c] fs IH]; cbn.
  - rewrite String.eqb_refl. reflexivity.
  - destruct (String.eqb p path) eqn:E; cbn; rewrite E; [reflexivity|exact IH].
Qed.

Lemma lookup_write_other (fs : list (string * string))
    (path content other : string) :
  other <> path ->
  ProcId.lookup (ProcId.write_file fs path content) other
  = ProcId.lookup fs other.
Proof.
  intros Hne. induction fs as [|[p c] fs IH]; cbn.
  - destruct (String.eqb_spec path other); [congruence|reflexivity].
  - destruct (String.eqb_spec p path) as [->|Hp]; cbn.
    + destruct (String.eqb_spec path other); [congruence|reflexivity].
    + destruct (String.eqb p other); [reflexivity|exact IH].
Qed.

Section GuardFacts.

Variable py_int : string -> result Z.
Variable os_kill : Z -> ProcId.kill_outcome.

Lemma twin_of_length (pid_path : string) (os : ProcId.OS) :
  (List.length (ProcId.twin_of py_int pid_path os) <= 1)%nat.
Proof.
  unfold ProcId.twin_of.
  destruct (ProcId.lookup (ProcId.files os) pid_path) as [content|];
    [destruct (py_int content)|]; cbn; lia.
Qed.

(** Unless [int] fails or [os.kill] interrupts the caller, the call gets to
    its last two statements. *)
Lemma kill_doppelganger_run (our_pid : Z) (pid_path : string)
    (os : ProcId.OS) :
  (forall content e,
     ProcId.lookup (ProcId.files os) pid_path = Some content ->
     py_int content <> Raise e) ->
  (forall twin_pid,
     In twin_pid (ProcId.twin_of py_int pid_path os) ->
     os_kill twin_pid <> ProcId.RaisesKeyboardInterrupt) ->
  exists out,
    ProcId.kill_doppelganger py_int os_kill our_pid pid_path os
    = (ProcId.Ended (Ok our_pid),
       ProcId.mkOS
         (ProcId.write_file (ProcId.files os) pid_path (ProcId.py_str our_pid))
         (ProcId.killed os ++ ProcId.twin_of py_int pid_path os)
         out).
Proof.
  intros Hparse Hkill. revert Hkill.
  unfold ProcId.kill_doppelganger, ProcId.twin_of.
  destruct (ProcId.lookup (ProcId.files os) pid_path) as [content|] eqn:Hl.
  - destruct (py_int content) as [twin|e] eqn:Hp.
    + intros Hkill. specialize (Hkill twin (or_introl eq_refl)).
      destruct (os_kill twin) as [|[|] text|text|];
        try (eexists; unfold ProcId.record_pid, ProcId.say; cbn; reflexivity).
      exfalso. apply Hkill. reflexivity.
    + exfalso. apply (Hparse content e eq_refl Hp).
  - intros _. exists (ProcId.stdout os). unfold ProcId.record_pid.
    rewrite app_nil_r. reflexivity.
Qed.

(** A [KeyboardInterrupt] out of [os.kill] ends the call there: the
    announcement is printed, the call of [os.kill] is made, the files stay. *)
Lemma kill_doppelganger_interrupted (our_pid twin_pid : Z)
    (pid_path content : string) (os : ProcId.OS) :
  ProcId.lookup (ProcId.files os) pid_path = Some content ->
  py_int content = Ok twin_pid ->
  os_kill twin_pid = ProcId.RaisesKeyboardInterrupt ->
  ProcId.kill_doppelganger py_int os_kill our_pid pid_path os
  = (ProcId.KeyboardInterrupt,
     ProcId.mkOS (ProcId.files os) (ProcId.killed os ++ [twin_pid])
       (ProcId.stdout os
        ++ [("Sending SIGINT to " ++ ProcId.py_str twin_pid ++ "...")%string])).
Proof.
  intros Hl Hp Hk. unfold ProcId.kill_doppelganger.
  rewrite Hl, Hp, Hk. reflexivity.
Qed.

(** X19: an answer of [os.kill] that one of the two handlers catches does
    not keep the guard from taking over: when there is no pid file, or its
    text reads as an int and [os.kill] on that pid returns, raises [OSError]
    or raises another [Exception], [kill_doppelganger] returns our pid and
    leaves [str(our_pid)] in the pid file, other files as they were;
    [os.kill] was called at most once, on the pid read from the file and on
    nothing else.  Only a [KeyboardInterrupt] out of [os.kill] is not caught:
    then the call ends with it, after the announcement and the call of
    [os.kill], and no file has changed. *)
Theorem kill_doppelganger_records_pid (our_pid : Z) (pid_path : string)
    (os : ProcId.OS) :
  (forall content e,
     ProcId.lookup (ProcId.files os) pid_path = Some content ->
     py_int content <> Raise e) ->
  let r := ProcId.kill_doppelganger py_int os_kill our_pid pid_path os in
  ((forall twin_pid,
      In twin_pid (ProcId.twin_of py_int pid_path os) ->
      os_kill twin_pid <> ProcId.RaisesKeyboardInterrupt) ->
   fst r = ProcId.Ended (Ok our_pid)
   /\ ProcId.lookup (ProcId.files (snd r)) pid_path
      = Some (ProcId.py_str our_pid)
   /\ (forall other, other <> pid_path ->
       ProcId.lookup (ProcId.files (snd r)) other
       = ProcId.lookup (ProcId.files os) other))
  /\ (forall twin_pid,
        In twin_pid (ProcId.twin_of py_int pid_path os) ->
        os_kill twin_pid = ProcId.RaisesKeyboardInterrupt ->
        fst r = ProcId.KeyboardInterrupt
        /\ ProcId.files (snd r) = ProcId.files os
        /\ ProcId.stdout (snd r)
           = ProcId.stdout os
             ++ [("Sending SIGINT to " ++ ProcId.py_str twin_pid ++ "...")%string])
  /\ ProcId.killed (snd r)
     = ProcId.killed os ++ ProcId.twin_of py_int pid_path os
  /\ (List.length (ProcId.twin_of py_int pid_path os) <= 1)%nat.
Proof.
  intros Hparse r. subst r.
  split; [|split; [|split; [|apply twin_of_length]]].
  - intros Hkill.
    destruct (kill_doppelganger_run our_pid pid_path os Hparse Hkill)
      as [out ->].
    cbn [fst snd ProcId.files].
    split; [reflexivity|]. split; [apply lookup_write_same|].
    intros other Hne. apply lookup_write_other. exact Hne.
  - intros twin_pid Hin Hk. unfold ProcId.twin_of in Hin.
    destruct (ProcId.lookup (ProcId.files os) pid_path) as [content|] eqn:Hl;
      [|destruct Hin].
    destruct (py_int content) as [twin|e] eqn:Hp; [|destruct Hin].
    destruct Hin as [->|[]].
    rewrite (kill_doppelganger_interrupted our_pid twin_pid pid_path content
               os Hl Hp Hk).
    cbn [fst snd ProcId.files ProcId.stdout]. repeat split.
  - unfold ProcId.twin_of.
    destruct (ProcId.lookup (ProcId.files os) pid_path) as [content|] eqn:Hl.
    + destruct (py_int content) as [twin|e] eqn:Hp.
      * destruct (os_kill twin) as [|[|] text|text|] eqn:Hk;
          unfold ProcId.kill_doppelganger; rewrite Hl, Hp, Hk; reflexivity.
      * exfalso. apply (Hparse content e eq_refl Hp).
    + unfold ProcId.kill_doppelganger. rewrite Hl. cbn.
      rewrite app_nil_r. reflexivity.
Qed.

(** X20: a pid file whose text does not read as an int stops the guard
    before it does anything: the error of [int] goes out, no signal is sent,
    nothing is printed and the pid file is not rewritten, so every later
    call fails the same way until the file is removed. *)
Theorem kill_doppelganger_bad_pid_file (our_pid : Z) (pid_path : string)
    (os : ProcId.OS) (content : string) (e : exn) :
  ProcId.lookup (ProcId.files os) pid_path = Some content ->
  py_int content = Raise e ->
  ProcId.kill_doppelganger py_int os_kill our_pid pid_path os
  = (ProcId.Ended (Raise e), os)
  /\ forall other_pid,
       ProcId.kill_doppelganger py_int os_kill other_pid pid_path
         (snd (ProcId.kill_doppelganger py_int os_kill our_pid pid_path os))
       = (ProcId.Ended (Raise e), os).
Proof.
  intros Hl Hp.
  assert (H : forall pid,
             ProcId.kill_doppelganger py_int os_kill pid pid_path os
             = (ProcId.Ended (Raise e), os)).
  { intros pid. unfold ProcId.kill_doppelganger. rewrite Hl, Hp.
    reflexivity. }
  split; [apply H|]. intros other_pid. rewrite (H our_pid). cbn [snd].
  apply H.
Qed.

(** X21: the guard does not tell its own pid from a twin's: once a call has
    recorded our pid, a second call by the same process reads it back and
    calls [os.kill] on our own pid (given that [int] reads back what [str]
    wrote).  When that signal raises [KeyboardInterrupt] in the caller, as
    Python's default handler does, the second call ends with it: it has
    printed the announcement and nothing more, it does not return the pid
    and it does not write the pid file, which keeps our pid.  When
    [os.kill] on our own pid answers in any other way, the second call
    records the pid again and returns it. *)
Theorem kill_doppelganger_twice_signals_self (our_pid : Z)
    (pid_path : string) (os : ProcId.OS) :
  py_int (ProcId.py_str our_pid) = Ok our_pid ->
  fst (ProcId.kill_doppelganger py_int os_kill our_pid pid_path os)
  = ProcId.Ended (Ok our_pid) ->
  let os1 :=
    snd (ProcId.kill_doppelganger py_int os_kill our_pid pid_path os) in
  let r2 := ProcId.kill_doppelganger py_int os_kill our_pid pid_path os1 in
  ProcId.killed (snd r2) = ProcId.killed os1 ++ [our_pid]
  /\ ProcId.lookup (ProcId.files (snd r2)) pid_path
     = Some (ProcId.py_str our_pid)
  /\ (os_kill our_pid = ProcId.RaisesKeyboardInterrupt ->
      r2 = (ProcId.KeyboardInterrupt,
            ProcId.mkOS (ProcId.files os1) (ProcId.killed os1 ++ [our_pid])
              (ProcId.stdout os1
               ++ [("Sending SIGINT to " ++ ProcId.py_str our_pid ++ "...")%string])))
  /\ (os_kill our_pid <> ProcId.RaisesKeyboardInterrupt ->
      fst r2 = ProcId.Ended (Ok our_pid)).
Proof.
  intros Hround Hok os1 r2.
  assert (Hfile : ProcId.lookup (ProcId.files os1) pid_path
                  = Some (ProcId.py_str our_pid)).
  { subst os1. revert Hok. unfold ProcId.kill_doppelganger.
    destruct (ProcId.lookup (ProcId.files os) pid_path) as [content|].
    - destruct (py_int content) as [twin|e]; [|discriminate].
      destruct (os_kill twin) as [|[|] text|text|]; try discriminate;
        intros _; cbn; apply lookup_write_same.
    - intros _. cbn. apply lookup_write_same. }
  assert (Htwin : ProcId.twin_of py_int pid_path os1 = [our_pid]).
  { unfold ProcId.twin_of. rewrite Hfile, Hround. reflexivity. }
  assert (Hparse : forall content e,
             ProcId.lookup (ProcId.files os1) pid_path = Some content ->
             py_int content <> Raise e).
  { intros content e Hl. rewrite Hfile in Hl. injection Hl as <-.
    rewrite Hround. discriminate. }
  assert (Hrun : os_kill our_pid <> ProcId.RaisesKeyboardInterrupt ->
                 exists out,
                   r2 = (ProcId.Ended (Ok our_pid),
                         ProcId.mkOS
                           (ProcId.write_file (ProcId.files os1) pid_path
                              (ProcId.py_str our_pid))
                           (ProcId.killed os1 ++ [our_pid]) out)).
  { intros Hk. rewrite <- Htwin.
    apply (kill_doppelganger_run our_pid pid_path os1 Hparse).
    intros twin_pid Hin. rewrite Htwin in Hin. destruct Hin as [<-|[]].
    exact Hk. }
  assert (Hint : os_kill our_pid = ProcId.RaisesKeyboardInterrupt ->
                 r2 = (ProcId.KeyboardInterrupt,
                       ProcId.mkOS (ProcId.files os1)
                         (ProcId.killed os1 ++ [our_pid])
                         (ProcId.stdout os1
                          ++ [("Sending SIGINT to " ++ ProcId.py_str our_pid
                               ++ "...")%string]))).
  { intros Hk.
    apply (kill_doppelganger_interrupted our_pid our_pid pid_path
             (ProcId.py_str our_pid) os1 Hfile Hround Hk). }
  clearbody r2.
  destruct (os_kill our_pid) as [|[|] text|text|] eqn:Hk.
  5: { rewrite (Hint eq_refl). cbn [fst snd ProcId.killed ProcId.files].
       split; [reflexivity|]. split; [exact Hfile|].
       split; [reflexivity|]. intros H. contradiction. }
  all: destruct Hrun as [out ->]; [discriminate|];
    cbn [fst snd ProcId.killed ProcId.files];
    (split; [reflexivity|]); (split; [apply lookup_write_same|]);
    (split; [discriminate|reflexivity]).
Qed.

End GuardFacts.

Lemma kill_doppelganger_records_pid_witness :
  let gone := fun _ : Z => ProcId.RaisesOSError true "No such process" in
  let os := ProcId.mkOS [("/tmp/menu.pid"%string, "4242"%string)] [] [] in
  ProcId.kill_doppelganger ProcId.decimal_int gone 500 "/tmp/menu.pid" os
  = (ProcId.Ended (Ok 500),
     ProcId.mkOS [("/tmp/menu.pid"%string, "500"%string)] [4242]
       ["Sending SIGINT to 4242..."%string; "no such process."%string])
  /\ ProcId.killed
       (snd (ProcId.kill_doppelganger ProcId.decimal_int gone 500
               "/tmp/menu.pid" os))
     = [] ++ [4242].
Proof.
  intros gone os. split; [vm_compute; reflexivity|].
  apply (kill_doppelganger_records_pid ProcId.decimal_int gone 500
           "/tmp/menu.pid" os).
  intros content e Hl. injection Hl as <-. vm_compute. discriminate.
Defined.

Lemma kill_doppelganger_bad_pid_file_witness :
  let os := ProcId.mkOS [("/tmp/menu.pid"%string, "12a"%string)] [] [] in
  ProcId.kill_doppelganger ProcId.decimal_int (fun _ => ProcId.Delivered) 500
    "/tmp/menu.pid" os
  = (ProcId.Ended (Raise ValueError), os).
Proof.
  intros os.
  apply (proj1 (kill_doppelganger_bad_pid_file ProcId.decimal_int
                  (fun _ => ProcId.Delivered) 500 "/tmp/menu.pid" os "12a"
                  ValueError eq_refl eq_refl)).
Defined.

Lemma kill_doppelganger_twice_signals_self_witness :
  let default_handler :=
    fun pid : Z =>
      if pid =? 500 then ProcId.RaisesKeyboardInterrupt
      else ProcId.RaisesOSError true "No such process" in
  let os := ProcId.mkOS [("/tmp/menu.pid"%string, "4242"%string)] [] [] in
  ProcId.kill_doppelganger ProcId.decimal_int default_handler 500
    "/tmp/menu.pid"
    (snd (ProcId.kill_doppelganger ProcId.decimal_int default_handler 500
            "/tmp/menu.pid" os))
  = (ProcId.KeyboardInterrupt,
     ProcId.mkOS [("/tmp/menu.pid"%string, "500"%string)] [4242; 500]
       ["Sending SIGINT to 4242..."%string; "no such process."%string;
        "Sending SIGINT to 500..."%string]).
Proof.
  intros default_handler os.
  apply (proj1 (proj2 (proj2
           (kill_doppelganger_twice_signals_self ProcId.decimal_int
              default_handler 500 "/tmp/menu.pid" os eq_refl eq_refl)))).
  reflexivity.
Defined.
